(** * The [create webhook] subcommand of the go/v3 plugin

    A shallow embedding of [pkg/plugins/golang/v3/webhook.go] and of the
    collaborators it calls.  Go packages become modules of the same name;
    a method with a pointer receiver becomes a computation over the
    receiver's fields; every call that leaves the package for the project
    configuration, the file system, the delegated validators or the
    scaffolder is an explicit [call], so that the order of the calls, the
    values they return and the state they leave behind can all be stated. *)

From Stdlib Require Import String List Bool.
Import ListNotations.
Open Scope string_scope.

Set Implicit Arguments.

(** ** Go values shared by every package *)

(** A Go [error] built by [fmt.Errorf]: the format string and its operands,
    kept unrendered (the rendering of [%q] and [%v] is [fmt]'s business). *)
Inductive error : Type :=
| Errorf (format : string) (args : list operand)
with operand : Type :=
| OpString (s : string)
| OpError (e : error).

(** The failure kinds of the error taxonomy (spec, section 7). *)
Inductive ErrorKind : Type :=
| InvalidOption
| InvalidResource
| NoWebhookTypeSelected
| ResourceNotFound
| WebhookAlreadyExists
| WebhookVersionConflict
| BoilerplateLoadFailure
| ScaffolderFailure.

(** A non-nil [error] as a method of this package returns it: the Go value,
    labelled with the kind the taxonomy gives to the return site. *)
Record failure : Type := Failure { kind : ErrorKind; cause : error }.

(** ** Package [pkg/model/resource] *)
Module resource.

(** Modelled from the spec: the type declarations of [resource.GVK],
    [resource.Webhooks] and [resource.Resource] are not among the sources;
    the fields are those of section 3 that [webhook.go] reads. *)
Record GVK : Type := mkGVK {
  Group : string;
  Domain : string;
  Version : string;
  Kind : string
}.

Record Webhooks : Type := mkWebhooks {
  WebhookVersion : string;
  Defaulting : bool;
  Validation : bool;
  Conversion : bool
}.

(** [Webhooks] is a pointer in the source ([r.Webhooks != nil]); [None] is
    the nil pointer. *)
Record Resource : Type := mkResource {
  gvk : GVK;
  Plural : string;
  webhooks : option Webhooks
}.

Definition GVK_eqb (a b : GVK) : bool :=
  String.eqb (Group a) (Group b) && String.eqb (Domain a) (Domain b) &&
  String.eqb (Version a) (Version b) && String.eqb (Kind a) (Kind b).

(** Modelled from the spec: [Webhooks.IsEmpty], absent from the sources.
    The descriptor is the set of enabled behaviours plus the API version
    (glossary); it is empty when it holds neither. *)
Definition IsEmpty (w : Webhooks) : bool :=
  String.eqb (WebhookVersion w) "" &&
  negb (Defaulting w) && negb (Validation w) && negb (Conversion w).

(** Modelled from the spec: [HasDefaultingWebhook], [HasValidationWebhook]
    and [HasConversionWebhook], absent from the sources: the descriptor is
    present and has the behaviour enabled (section 4.2, check 3). *)
Definition HasDefaultingWebhook (r : Resource) : bool :=
  match webhooks r with Some w => Defaulting w | None => false end.

Definition HasValidationWebhook (r : Resource) : bool :=
  match webhooks r with Some w => Validation w | None => false end.

Definition HasConversionWebhook (r : Resource) : bool :=
  match webhooks r with Some w => Conversion w | None => false end.

(** The zero value of [resource.Resource]. *)
Definition zero : Resource := mkResource (mkGVK "" "" "" "") "" None.

Definition isUpper (c : Ascii.ascii) : bool :=
  Nat.leb 65 (Ascii.nat_of_ascii c) && Nat.leb (Ascii.nat_of_ascii c) 90.

(** Modelled from the spec: [Resource.Validate], absent from the sources
    (section 4.2, check 2, and section 4.1): the components of the identity
    are valid one by one; of the legality rules the spec names, a non-empty
    version and a kind that starts with a capital. *)
Definition Validate (r : Resource) : option error :=
  if String.eqb (Version (gvk r)) ""
  then Some (Errorf "version cannot be empty" [])
  else
    match Kind (gvk r) with
    | String c _ =>
        if isUpper c then None
        else Some (Errorf "kind must start with an uppercase character" [])
    | EmptyString => Some (Errorf "kind cannot be empty" [])
    end.

End resource.

(** ** Package [pkg/config] *)
Module config.

(** [config.Config] is an interface; a value of it is a reference to the
    project configuration the command line loaded for this process.  The
    state behind the reference lives in the world (see [State]). *)
Inductive Config : Type := Loaded.

(** Modelled from the spec: the Project Config collaborator, absent from
    the sources (sections 2 and 3): the project's domain and the durable
    set of previously declared resources. *)
Record State : Type := mkState {
  Domain : string;
  Resources : list resource.Resource
}.

Definition GetDomain (s : State) : string := Domain s.

(** Modelled from the spec: [GetResource], absent from the sources
    (section 4.2, check 4): the resource declared under that identity, or
    an error when none is. *)
Definition GetResource (s : State) (gvk : resource.GVK)
  : resource.Resource + error :=
  match find (fun r => resource.GVK_eqb (resource.gvk r) gvk) (Resources s) with
  | Some r => inl r
  | None => inr (Errorf "resource not found" [])
  end.

Definition carriesWebhooks (r : resource.Resource) : bool :=
  match resource.webhooks r with
  | Some w => negb (resource.IsEmpty w)
  | None => false
  end.

(** Modelled from the spec: the ProjectWebhookPolicy of section 3, the
    webhook API version the project is committed to, inferred from a
    resource that already carries a non-empty webhook descriptor. *)
Definition ProjectWebhookPolicy (s : State) : option string :=
  match find carriesWebhooks (Resources s) with
  | Some r => option_map resource.WebhookVersion (resource.webhooks r)
  | None => None
  end.

(** Modelled from the spec: [IsWebhookVersionCompatible], absent from the
    sources (section 4.2, check 6): the requested version must match the
    committed one, if one exists. *)
Definition IsWebhookVersionCompatible (s : State) (v : string) : bool :=
  match ProjectWebhookPolicy s with
  | Some committed => String.eqb v committed
  | None => true
  end.

(** Modelled from the spec: the update the scaffolder makes after a
    successful generation (section 3, Resource): the declared resource's
    webhook descriptor is populated. *)
Definition UpdateResource (r : resource.Resource) (s : State) : State :=
  mkState (Domain s)
    (map (fun r0 =>
            if resource.GVK_eqb (resource.gvk r0) (resource.gvk r)
            then resource.mkResource (resource.gvk r0) (resource.Plural r0)
                   (resource.webhooks r)
            else r0)
         (Resources s)).

End config.

(** ** Package [pkg/plugins/golang] *)
Module goPlugin.

(** Modelled from the spec: the declaration of [goPlugin.Options] is not
    among the sources; the fields are the ones [BindFlags] binds or
    assigns. *)
Record Options : Type := mkOptions {
  Group : string;
  Domain : string;
  Version : string;
  Kind : string;
  Plural : string;
  WebhookVersion : string;
  DoDefaulting : bool;
  DoValidation : bool;
  DoConversion : bool
}.

(** [&goPlugin.Options{}] *)
Definition zero : Options := mkOptions "" "" "" "" "" "" false false false.

Definition GVK (o : Options) : resource.GVK :=
  resource.mkGVK (Group o) (Domain o) (Version o) (Kind o).

(** Modelled from the spec: [Options.Validate], absent from the sources
    (section 4.2, check 1): of the rules the spec names, the kind must be
    non-empty. *)
Definition Validate (o : Options) : option error :=
  if String.eqb (Kind o) ""
  then Some (Errorf "kind cannot be empty" [])
  else None.

(** Modelled from the spec: [Options.NewResource], absent from the sources
    (section 4.1, the Resource Descriptor Builder).  Pure construction: the
    identity is the options' group, version and kind under the project's
    domain, which the options carry since [BindFlags]; the plural is passed
    through verbatim; the descriptor is the three behaviours and the
    requested webhook version.  The configuration passed in is not
    consulted. *)
Definition NewResource (o : Options) (c : option config.Config)
  : resource.Resource :=
  resource.mkResource (GVK o) (Plural o)
    (Some (resource.mkWebhooks (WebhookVersion o)
             (DoDefaulting o) (DoValidation o) (DoConversion o))).

End goPlugin.

(** ** Package [pkg/plugins/golang/v3/scaffolds] *)
Module scaffolds.

(** Modelled from the spec: the scaffolder handle, whose constructor is not
    among the sources (section 4.3): it holds the project configuration,
    the boilerplate text, the resource and the force flag. *)
Record Scaffolder : Type := NewWebhookScaffolder {
  config : option config.Config;
  boilerplate : string;
  resource : resource.Resource;
  force : bool
}.

End scaffolds.

(** ** Calls to collaborators, and programs that make them *)

(** One constructor per call that leaves [webhook.go]; the index is the
    type of the value the call returns. *)
Inductive call : Type -> Type :=
| OptionsValidate (o : goPlugin.Options) : call (option error)
| ResourceValidate (r : resource.Resource) : call (option error)
| GetDomain (c : config.Config) : call string
| GetResource (c : config.Config) (gvk : resource.GVK)
    : call (resource.Resource + error)
| IsWebhookVersionCompatible (c : config.Config) (v : string) : call bool
| ReadFile (filename : string) : call (string + error)
| Scaffold (s : scaffolds.Scaffolder) : call (option error).

(** A program: it returns, panics, or makes a call and continues with the
    value the call returned. *)
Inductive Prog (A : Type) : Type :=
| Ret (a : A)
| Panic (reason : string)
| Vis (X : Type) (c : call X) (k : X -> Prog A).

Arguments Ret {A} a.
Arguments Panic {A} reason.
Arguments Vis {A X} c k.

Fixpoint Prog_bind (A B : Type) (m : Prog A) (k : A -> Prog B) : Prog B :=
  match m with
  | Ret a => k a
  | Panic reason => Panic reason
  | Vis c h => Vis c (fun x => Prog_bind (h x) k)
  end.

(** A call as it happened: the call and the value it returned. *)
Inductive event : Type :=
| Ev (X : Type) (c : call X) (x : X).

Arguments Ev {X} c x.

(** The collaborators: what each call returns in a world [W], and the
    world it leaves. *)
Definition handler (W : Type) : Type := forall X : Type, call X -> W -> X * W.

Inductive outcome (A : Type) : Type :=
| Done (a : A)
| Panicked (reason : string).

Arguments Done {A} a.
Arguments Panicked {A} reason.

(** Running a program: the calls made, in order, the world left behind and
    the outcome. *)
Fixpoint interp (W A : Type) (h : handler W) (m : Prog A) (w : W)
  : list event * W * outcome A :=
  match m with
  | Ret a => ([], w, Done a)
  | Panic reason => ([], w, Panicked reason)
  | Vis c k =>
      let '(x, w1) := h _ c w in
      let '(tr, w2, out) := interp h (k x) w1 in
      (Ev c x :: tr, w2, out)
  end.

(** A method with a pointer receiver whose fields are [S]. *)
Definition method (S A : Type) : Type := S -> Prog (A * S).

Definition ret (S A : Type) (a : A) : method S A := fun s => Ret (a, s).

Definition bind (S A B : Type) (m : method S A) (k : A -> method S B)
  : method S B :=
  fun s => Prog_bind (m s) (fun r => k (fst r) (snd r)).

Definition get (S : Type) : method S S := fun s => Ret (s, s).

Definition put (S : Type) (s : S) : method S unit := fun _ => Ret (tt, s).

Definition invoke (S X : Type) (c : call X) : method S X :=
  fun s => Vis c (fun x => Ret (x, s)).

Definition panic (S A : Type) (reason : string) : method S A :=
  fun _ => Panic reason.

Arguments ret {S A} a.
Arguments get {S}.
Arguments invoke {S X} c.
Arguments panic {S A} reason.

Definition nilDereference : string :=
  "runtime error: invalid memory address or nil pointer dereference".

(** Reading through a pointer: a nil pointer panics. *)
Definition deref (S A : Type) (ptr : option A) : method S A :=
  match ptr with
  | Some a => ret a
  | None => panic nilDereference
  end.

Arguments deref {S A} ptr.

Declare Scope method_scope.
Delimit Scope method_scope with method.
Notation "x <- m ;; k" := (bind m (fun x => k))
  (at level 61, m at next level, right associativity) : method_scope.
Notation "m ;;; k" := (bind m (fun _ => k))
  (at level 61, right associativity) : method_scope.
Open Scope method_scope.

(** ** Package [github.com/spf13/pflag] *)
Module pflag.

(** [strconv.ParseBool], which a boolean flag applies to its argument. *)
Definition ParseBool (s : string) : option bool :=
  if existsb (String.eqb s) ["1"; "t"; "T"; "TRUE"; "true"; "True"] then Some true
  else if existsb (String.eqb s) ["0"; "f"; "F"; "FALSE"; "false"; "False"] then Some false
  else None.

Section FlagSet.

(** The memory the bound variables live in. *)
Variable S : Type.

(** Modelled from the spec: the flag-parsing library, an external
    collaborator (sections 1 and 6).  A flag has a name, a usage text, a
    default and the variable it is bound to, given by the effect of storing
    into it; [Value] parses the argument and stores it. *)
Record Flag : Type := mkFlag {
  Name : string;
  Usage : string;
  DefValue : string;
  Value : string -> S -> S + error
}.

Definition FlagSet : Type := list Flag.

Definition NewFlagSet : FlagSet := [].

(** [fs.StringVar(p, name, value, usage)]: the variable takes the default
    at once, and the flag joins the set. *)
Definition StringVar (p : string -> S -> S) (name value usage : string)
  (fs : FlagSet) : method S FlagSet :=
  fun s => Ret (List.app fs [mkFlag name usage value (fun v s' => inl (p v s'))],
                p value s).

Definition BoolVar (p : bool -> S -> S) (name : string) (value : bool)
  (usage : string) (fs : FlagSet) : method S FlagSet :=
  fun s => Ret (List.app fs [mkFlag name usage (if value then "true" else "false")
                                (fun v s' =>
                                   match ParseBool v with
                                   | Some b => inl (p b s')
                                   | None => inr (Errorf "invalid syntax" [OpString v])
                                   end)],
                p value s).

Definition Lookup (name : string) (fs : FlagSet) : option Flag :=
  find (fun f => String.eqb (Name f) name) fs.

(** [fs.Set(name, value)] *)
Definition Set_ (fs : FlagSet) (name value : string) (s : S) : S + error :=
  match Lookup name fs with
  | Some f => Value f value s
  | None => inr (Errorf "no such flag -%v" [OpString name])
  end.

(** [fs.Parse]: the arguments, already split into a flag's name and the
    value given to it (a boolean flag given bare has the value [true]), are
    stored from left to right; the first that fails stops the parse. *)
Fixpoint Parse (fs : FlagSet) (args : list (string * string)) (s : S)
  : S * option error :=
  match args with
  | [] => (s, None)
  | (name, value) :: rest =>
      match Set_ fs name value s with
      | inl s' => Parse fs rest s'
      | inr err => (s, Some err)
      end
  end.

End FlagSet.

End pflag.

(** ** Package [pkg/plugin] *)
Module plugin.

Record Context : Type := mkContext {
  CommandName : string;
  Description : string;
  Examples : string
}.

End plugin.

(** ** Package [pkg/plugins/internal/cmdutil] *)
Module cmdutil.

Section Run.

Variable S : Type.

(** The interface [cmdutil.RunOptions], which line 52 of [webhook.go]
    asserts the subcommand implements. *)
Record RunOptions : Type := mkRunOptions {
  Validate : method S (option failure);
  GetScaffolder : method S (scaffolds.Scaffolder + failure);
  PostScaffold : method S (option failure)
}.

(** Modelled from the spec: [cmdutil.Run], absent from the sources (section
    4.3, the Run Orchestrator): validate; on success acquire the
    scaffolder; hand control to it and report its failure upward; then the
    subcommand's [PostScaffold].  Any failure ends the run. *)
Definition Run (o : RunOptions) : method S (option failure) :=
  err <- Validate o ;;
  match err with
  | Some e => ret (Some e)
  | None =>
      r <- GetScaffolder o ;;
      match r with
      | inr e => ret (Some e)
      | inl scaffolder =>
          err <- invoke (Scaffold scaffolder) ;;
          match err with
          | Some e => ret (Some (Failure ScaffolderFailure e))
          | None => PostScaffold o
          end
      end
  end.

End Run.

End cmdutil.

(** ** Package [path/filepath] *)
Module filepath.

Definition Separator : string := "/".

(** [filepath.Join]: the non-empty elements, joined by the separator (the
    final [Clean] changes nothing on the elements joined here). *)
Definition Join (elem : list string) : string :=
  String.concat Separator (filter (fun e => negb (String.eqb e "")) elem).

End filepath.

(** ** Package [pkg/plugins/golang/v3], file [webhook.go] *)
Module v3.

(** [defaultWebhookVersion] is the default mutating/validating webhook
    config API version to scaffold. *)
Definition defaultWebhookVersion : string := "v1".

Record createWebhookSubcommand : Type := mkSubcommand {
  config : option config.Config;
  (* For help text. *)
  commandName : string;
  options : option goPlugin.Options;
  resource : resource.Resource;
  (* force indicates that the resource should be created even if it
     already exists *)
  force : bool
}.

(** [&createWebhookSubcommand{}] *)
Definition zero : createWebhookSubcommand :=
  mkSubcommand None "" None resource.zero false.

(** *** Assignments to the receiver's fields *)

Definition set_config (c : option config.Config) (p : createWebhookSubcommand) :=
  mkSubcommand c (commandName p) (options p) (resource p) (force p).

Definition set_commandName (n : string) (p : createWebhookSubcommand) :=
  mkSubcommand (config p) n (options p) (resource p) (force p).

Definition set_options (o : option goPlugin.Options) (p : createWebhookSubcommand) :=
  mkSubcommand (config p) (commandName p) o (resource p) (force p).

Definition set_resource (r : resource.Resource) (p : createWebhookSubcommand) :=
  mkSubcommand (config p) (commandName p) (options p) r (force p).

Definition set_force (b : bool) (p : createWebhookSubcommand) :=
  mkSubcommand (config p) (commandName p) (options p) (resource p) b.

(** A store through a pointer into [*p.options].  The pointers are taken in
    [BindFlags] right after the allocation, so the object is there. *)
Definition through_options (f : goPlugin.Options -> goPlugin.Options)
  (p : createWebhookSubcommand) : createWebhookSubcommand :=
  match options p with
  | Some o => set_options (Some (f o)) p
  | None => p
  end.

Import goPlugin.

Definition store_Group (v : string) : createWebhookSubcommand -> createWebhookSubcommand :=
  through_options (fun o =>
    mkOptions v (Domain o) (Version o) (Kind o) (Plural o) (WebhookVersion o)
      (DoDefaulting o) (DoValidation o) (DoConversion o)).

Definition store_Domain (v : string) : createWebhookSubcommand -> createWebhookSubcommand :=
  through_options (fun o =>
    mkOptions (Group o) v (Version o) (Kind o) (Plural o) (WebhookVersion o)
      (DoDefaulting o) (DoValidation o) (DoConversion o)).

Definition store_Version (v : string) : createWebhookSubcommand -> createWebhookSubcommand :=
  through_options (fun o =>
    mkOptions (Group o) (Domain o) v (Kind o) (Plural o) (WebhookVersion o)
      (DoDefaulting o) (DoValidation o) (DoConversion o)).

Definition store_Kind (v : string) : createWebhookSubcommand -> createWebhookSubcommand :=
  through_options (fun o =>
    mkOptions (Group o) (Domain o) (Version o) v (Plural o) (WebhookVersion o)
      (DoDefaulting o) (DoValidation o) (DoConversion o)).

Definition store_Plural (v : string) : createWebhookSubcommand -> createWebhookSubcommand :=
  through_options (fun o =>
    mkOptions (Group o) (Domain o) (Version o) (Kind o) v (WebhookVersion o)
      (DoDefaulting o) (DoValidation o) (DoConversion o)).

Definition store_WebhookVersion (v : string) : createWebhookSubcommand -> createWebhookSubcommand :=
  through_options (fun o =>
    mkOptions (Group o) (Domain o) (Version o) (Kind o) (Plural o) v
      (DoDefaulting o) (DoValidation o) (DoConversion o)).

Definition store_DoDefaulting (v : bool) : createWebhookSubcommand -> createWebhookSubcommand :=
  through_options (fun o =>
    mkOptions (Group o) (Domain o) (Version o) (Kind o) (Plural o)
      (WebhookVersion o) v (DoValidation o) (DoConversion o)).

Definition store_DoValidation (v : bool) : createWebhookSubcommand -> createWebhookSubcommand :=
  through_options (fun o =>
    mkOptions (Group o) (Domain o) (Version o) (Kind o) (Plural o)
      (WebhookVersion o) (DoDefaulting o) v (DoConversion o)).

Definition store_DoConversion (v : bool) : createWebhookSubcommand -> createWebhookSubcommand :=
  through_options (fun o =>
    mkOptions (Group o) (Domain o) (Version o) (Kind o) (Plural o)
      (WebhookVersion o) (DoDefaulting o) (DoValidation o) v).

(** A method of the subcommand. *)
Definition M (A : Type) : Type := method createWebhookSubcommand A.

Definition assign (f : createWebhookSubcommand -> createWebhookSubcommand) : M unit :=
  fun p => Ret (tt, f p).

(** *** The methods, in the order of the source *)

Definition UpdateContext (ctx : plugin.Context) : M plugin.Context :=
  let ctx1 :=
    plugin.mkContext (plugin.CommandName ctx)
      "Scaffold a webhook for an API resource. You can choose to scaffold defaulting,
validating and (or) conversion webhooks.
"
      (plugin.Examples ctx) in
  let ctx2 :=
    plugin.mkContext (plugin.CommandName ctx1) (plugin.Description ctx1)
      ("  # Create defaulting and validating webhooks for CRD of group ship, version v1beta1
  # and kind Frigate.
  " ++ plugin.CommandName ctx1 ++ " create webhook --group ship --version v1beta1 --kind Frigate --defaulting --programmatic-validation

  # Create conversion webhook for CRD of group ship, version v1beta1 and kind Frigate.
  " ++ plugin.CommandName ctx1 ++ " create webhook --group ship --version v1beta1 --kind Frigate --conversion
") in
  assign (set_commandName (plugin.CommandName ctx2)) ;;;
  ret ctx2.

Definition BindFlags (fs : pflag.FlagSet createWebhookSubcommand)
  : M (pflag.FlagSet createWebhookSubcommand) :=
  assign (set_options (Some goPlugin.zero)) ;;;
  fs <- pflag.StringVar store_Group "group" "" "resource Group" fs ;;
  p <- get ;;
  c <- deref (config p) ;;
  domain <- invoke (GetDomain c) ;;
  assign (store_Domain domain) ;;;
  fs <- pflag.StringVar store_Version "version" "" "resource Version" fs ;;
  fs <- pflag.StringVar store_Kind "kind" "" "resource Kind" fs ;;
  fs <- pflag.StringVar store_Plural "plural" "" "resource irregular plural form" fs ;;

  fs <- pflag.StringVar store_WebhookVersion "webhook-version" defaultWebhookVersion
          "version of {Mutating,Validating}WebhookConfigurations to scaffold. Options: [v1, v1beta1]" fs ;;
  fs <- pflag.BoolVar store_DoDefaulting "defaulting" false
          "if set, scaffold the defaulting webhook" fs ;;
  fs <- pflag.BoolVar store_DoValidation "programmatic-validation" false
          "if set, scaffold the validating webhook" fs ;;
  fs <- pflag.BoolVar store_DoConversion "conversion" false
          "if set, scaffold the conversion webhook" fs ;;

  fs <- pflag.BoolVar set_force "force" false
          "attempt to create resource even if it already exists" fs ;;
  ret fs.

Definition InjectConfig (c : config.Config) : M unit :=
  assign (set_config (Some c)).

Definition Validate : M (option failure) :=
  p <- get ;;
  o <- deref (options p) ;;
  err <- invoke (OptionsValidate o) ;;
  match err with
  | Some err => ret (Some (Failure InvalidOption err))
  | None =>

  err <- invoke (ResourceValidate (resource p)) ;;
  match err with
  | Some err => ret (Some (Failure InvalidResource err))
  | None =>

  if negb (resource.HasDefaultingWebhook (resource p))
     && negb (resource.HasValidationWebhook (resource p))
     && negb (resource.HasConversionWebhook (resource p))
  then
    ret (Some (Failure NoWebhookTypeSelected
                 (Errorf ("%s create webhook requires at least one of --defaulting,"
                          ++ " --programmatic-validation and --conversion to be true")
                         [OpString (commandName p)])))
  else

  (* check if resource exist to create webhook *)
  c <- deref (config p) ;;
  found <- invoke (GetResource c (resource.gvk (resource p))) ;;
  match found with
  | inr _ =>
      ret (Some (Failure ResourceNotFound
                   (Errorf "%s create webhook requires a previously created API "
                           [OpString (commandName p)])))
  | inl r =>
  if match resource.webhooks r with
     | Some w => negb (resource.IsEmpty w)
     | None => false
     end && negb (force p)
  then
    ret (Some (Failure WebhookAlreadyExists
                 (Errorf "webhook resource already exists" [])))
  else

  w <- deref (resource.webhooks (resource p)) ;;
  compatible <- invoke (IsWebhookVersionCompatible c (resource.WebhookVersion w)) ;;
  if negb compatible
  then
    ret (Some (Failure WebhookVersionConflict
                 (Errorf "only one webhook version can be used for all resources, cannot add %q"
                         [OpString (resource.WebhookVersion w)])))
  else

  ret None
  end
  end
  end.

Definition GetScaffolder : M (scaffolds.Scaffolder + failure) :=
  (* Load the boilerplate *)
  read <- invoke (ReadFile (filepath.Join ["hack"; "boilerplate.go.txt"])) ;;
  match read with
  | inr err =>
      ret (inr (Failure BoilerplateLoadFailure
                  (Errorf "unable to load boilerplate: %v" [OpError err])))
  | inl bp =>
      p <- get ;;
      ret (inl (scaffolds.NewWebhookScaffolder (config p) bp (resource p) (force p)))
  end.

Definition PostScaffold : M (option failure) :=
  ret None.

(** [var _ cmdutil.RunOptions = &createWebhookSubcommand{}] *)
Definition RunOptions : cmdutil.RunOptions createWebhookSubcommand :=
  cmdutil.mkRunOptions Validate GetScaffolder PostScaffold.

Definition Run : M (option failure) :=
  (* Create the resource from the options *)
  p <- get ;;
  o <- deref (options p) ;;
  assign (set_resource (goPlugin.NewResource o (config p))) ;;;

  cmdutil.Run RunOptions.

End v3.

(** ** Package [io/ioutil] *)
Module ioutil.

(** [ioutil.ReadFile] over the files of the working directory, by relative
    path. *)
Definition ReadFile (files : list (string * string)) (filename : string)
  : string + error :=
  match find (fun f => String.eqb (fst f) filename) files with
  | Some f => inl (snd f)
  | None => inr (Errorf "open %s: no such file or directory" [OpString filename])
  end.

End ioutil.

(** ** The world the command runs in *)
Module world.

(** The state that outlives an invocation: the project configuration and
    the files of the project directory. *)
Record World : Type := mkWorld {
  project : config.State;
  files : list (string * string)
}.

Section collaborators.

(** The two delegated validators. *)
Variable options_Validate : goPlugin.Options -> option error.
Variable resource_Validate : resource.Resource -> option error.

(** Modelled from the spec: what each collaborator answers.  The queries
    of the project configuration read it (section 5); the scaffolder
    populates the descriptor of the declared resource (section 3). *)
Definition collaborators : handler World :=
  fun X c =>
    match c in call X return World -> X * World with
    | OptionsValidate o => fun w => (options_Validate o, w)
    | ResourceValidate r => fun w => (resource_Validate r, w)
    | GetDomain _ => fun w => (config.GetDomain (project w), w)
    | GetResource _ gvk => fun w => (config.GetResource (project w) gvk, w)
    | IsWebhookVersionCompatible _ v =>
        fun w => (config.IsWebhookVersionCompatible (project w) v, w)
    | ReadFile filename => fun w => (ioutil.ReadFile (files w) filename, w)
    | Scaffold s =>
        fun w =>
          (None,
           mkWorld (config.UpdateResource (scaffolds.resource s) (project w))
                   (files w))
    end.

End collaborators.

(** The collaborators with the validators of the model. *)
Definition standard : handler World :=
  collaborators goPlugin.Validate resource.Validate.

End world.

(** ** An invocation of the command *)

(** Modelled from the spec: the command line's driver, absent from the
    sources (section 4.3, [Start] to [Done]): the configuration is
    injected, the flags are bound on a fresh flag set, the context is
    updated, the arguments are parsed and, when they parse, the command
    runs. *)
Definition invocation (c : config.Config) (ctx : plugin.Context)
  (args : list (string * string)) : v3.M (option error + option failure) :=
  v3.InjectConfig c ;;;
  fs <- v3.BindFlags (pflag.NewFlagSet v3.createWebhookSubcommand) ;;
  v3.UpdateContext ctx ;;;
  p <- get ;;
  let parsed := pflag.Parse fs args p in
  put (fst parsed) ;;;
  match snd parsed with
  | Some err => ret (inl (Some err))
  | None => res <- v3.Run ;; ret (inr res)
  end.


(** ** The validation chain, as the specification words it *)
Module chain.

Import v3.

(** Check 3 passes: at least one webhook type is selected. *)
Definition typeSelected (r : resource.Resource) : bool :=
  resource.HasDefaultingWebhook r || resource.HasValidationWebhook r
  || resource.HasConversionWebhook r.

(** Check 5 fails: the declared resource already carries a non-empty
    descriptor and the force flag is not set. *)
Definition duplicates (declared : resource.Resource) (force : bool) : bool :=
  config.carriesWebhooks declared && negb force.

Definition errNoWebhookTypeSelected (commandName : string) : failure :=
  Failure NoWebhookTypeSelected
    (Errorf "%s create webhook requires at least one of --defaulting, --programmatic-validation and --conversion to be true"
            [OpString commandName]).

Definition errResourceNotFound (commandName : string) : failure :=
  Failure ResourceNotFound
    (Errorf "%s create webhook requires a previously created API "
            [OpString commandName]).

Definition errWebhookAlreadyExists : failure :=
  Failure WebhookAlreadyExists (Errorf "webhook resource already exists" []).

Definition errWebhookVersionConflict (version : string) : failure :=
  Failure WebhookVersionConflict
    (Errorf "only one webhook version can be used for all resources, cannot add %q"
            [OpString version]).

Section runs.

Variable p : createWebhookSubcommand.
Variable o : goPlugin.Options.
Variable c : config.Config.

(** The runs of the chain: the calls made with what they returned, and the
    verdict.  Each constructor is the chain stopping at one check, the
    earlier ones having passed and no later one having run; the last is
    all six passing. *)
Inductive run : list event -> option failure -> Prop :=
| stops_at_options err :
    run [Ev (OptionsValidate o) (Some err)]
        (Some (Failure InvalidOption err))
| stops_at_resource err :
    run [Ev (OptionsValidate o) None;
         Ev (ResourceValidate (resource p)) (Some err)]
        (Some (Failure InvalidResource err))
| stops_at_type :
    typeSelected (resource p) = false ->
    run [Ev (OptionsValidate o) None;
         Ev (ResourceValidate (resource p)) None]
        (Some (errNoWebhookTypeSelected (commandName p)))
| stops_at_existence err :
    typeSelected (resource p) = true ->
    run [Ev (OptionsValidate o) None;
         Ev (ResourceValidate (resource p)) None;
         Ev (GetResource c (resource.gvk (resource p))) (inr err)]
        (Some (errResourceNotFound (commandName p)))
| stops_at_duplication declared :
    typeSelected (resource p) = true ->
    duplicates declared (force p) = true ->
    run [Ev (OptionsValidate o) None;
         Ev (ResourceValidate (resource p)) None;
         Ev (GetResource c (resource.gvk (resource p))) (inl declared)]
        (Some errWebhookAlreadyExists)
| stops_at_version declared w :
    typeSelected (resource p) = true ->
    duplicates declared (force p) = false ->
    resource.webhooks (resource p) = Some w ->
    run [Ev (OptionsValidate o) None;
         Ev (ResourceValidate (resource p)) None;
         Ev (GetResource c (resource.gvk (resource p))) (inl declared);
         Ev (IsWebhookVersionCompatible c (resource.WebhookVersion w)) false]
        (Some (errWebhookVersionConflict (resource.WebhookVersion w)))
| passes declared w :
    typeSelected (resource p) = true ->
    duplicates declared (force p) = false ->
    resource.webhooks (resource p) = Some w ->
    run [Ev (OptionsValidate o) None;
         Ev (ResourceValidate (resource p)) None;
         Ev (GetResource c (resource.gvk (resource p))) (inl declared);
         Ev (IsWebhookVersionCompatible c (resource.WebhookVersion w)) true]
        None.

End runs.

(** *** The six checks one by one, against the modelled configuration *)
Section checks.

Variable options_Validate : goPlugin.Options -> option error.
Variable resource_Validate : resource.Resource -> option error.
Variable st : config.State.
Variable p : createWebhookSubcommand.
Variable o : goPlugin.Options.

Definition optionWellFormedness : option failure :=
  option_map (Failure InvalidOption) (options_Validate o).

Definition resourceWellFormedness : option failure :=
  option_map (Failure InvalidResource) (resource_Validate (resource p)).

Definition webhookTypeSelection : option failure :=
  if typeSelected (resource p) then None
  else Some (errNoWebhookTypeSelected (commandName p)).

Definition resourceExistence : option failure :=
  match config.GetResource st (resource.gvk (resource p)) with
  | inl _ => None
  | inr _ => Some (errResourceNotFound (commandName p))
  end.

Definition nonDuplicationUnlessForced : option failure :=
  match config.GetResource st (resource.gvk (resource p)) with
  | inl declared =>
      if duplicates declared (force p) then Some errWebhookAlreadyExists else None
  | inr _ => None
  end.

Definition versionCompatibility : option failure :=
  match resource.webhooks (resource p) with
  | Some w =>
      if config.IsWebhookVersionCompatible st (resource.WebhookVersion w)
      then None
      else Some (errWebhookVersionConflict (resource.WebhookVersion w))
  | None => None
  end.

(** The chain in its fixed order (section 4.2). *)
Definition checks : list (option failure) :=
  [optionWellFormedness; resourceWellFormedness; webhookTypeSelection;
   resourceExistence; nonDuplicationUnlessForced; versionCompatibility].

(** The checks that precede the duplication check, the version check and
    the existence check. *)
Definition beforeDuplication : list (option failure) :=
  [optionWellFormedness; resourceWellFormedness; webhookTypeSelection;
   resourceExistence].

Definition beforeVersion : list (option failure) :=
  [optionWellFormedness; resourceWellFormedness; webhookTypeSelection;
   resourceExistence; nonDuplicationUnlessForced].

Definition beforeExistence : list (option failure) :=
  [optionWellFormedness; resourceWellFormedness; webhookTypeSelection].

End checks.

(** The first failing check of a list of checks determines the verdict. *)
Fixpoint firstFailure (l : list (option failure)) : option failure :=
  match l with
  | [] => None
  | Some f :: _ => Some f
  | None :: rest => firstFailure rest
  end.

End chain.


(** ** The flags the subcommand binds *)

(** The flag set [BindFlags] leaves when it is given a fresh one, written
    out (lemma [BindFlags_boundFlags] shows it is). *)
Definition boundFlags : pflag.FlagSet v3.createWebhookSubcommand :=
  [pflag.mkFlag "group" "resource Group" ""
     (fun v s => inl (v3.store_Group v s));
   pflag.mkFlag "version" "resource Version" ""
     (fun v s => inl (v3.store_Version v s));
   pflag.mkFlag "kind" "resource Kind" ""
     (fun v s => inl (v3.store_Kind v s));
   pflag.mkFlag "plural" "resource irregular plural form" ""
     (fun v s => inl (v3.store_Plural v s));
   pflag.mkFlag "webhook-version"
     "version of {Mutating,Validating}WebhookConfigurations to scaffold. Options: [v1, v1beta1]"
     v3.defaultWebhookVersion
     (fun v s => inl (v3.store_WebhookVersion v s));
   pflag.mkFlag "defaulting" "if set, scaffold the defaulting webhook" "false"
     (fun v s =>
        match pflag.ParseBool v with
        | Some b => inl (v3.store_DoDefaulting b s)
        | None => inr (Errorf "invalid syntax" [OpString v])
        end);
   pflag.mkFlag "programmatic-validation" "if set, scaffold the validating webhook" "false"
     (fun v s =>
        match pflag.ParseBool v with
        | Some b => inl (v3.store_DoValidation b s)
        | None => inr (Errorf "invalid syntax" [OpString v])
        end);
   pflag.mkFlag "conversion" "if set, scaffold the conversion webhook" "false"
     (fun v s =>
        match pflag.ParseBool v with
        | Some b => inl (v3.store_DoConversion b s)
        | None => inr (Errorf "invalid syntax" [OpString v])
        end);
   pflag.mkFlag "force" "attempt to create resource even if it already exists" "false"
     (fun v s =>
        match pflag.ParseBool v with
        | Some b => inl (v3.set_force b s)
        | None => inr (Errorf "invalid syntax" [OpString v])
        end)].

(** ** What parsing the flags may change *)

(** The domain the options hold, once they are allocated. *)
Definition domainOf (p : v3.createWebhookSubcommand) : option string :=
  option_map goPlugin.Domain (v3.options p).

(** The webhook version the options hold. *)
Definition webhookVersionOf (p : v3.createWebhookSubcommand) : option string :=
  option_map goPlugin.WebhookVersion (v3.options p).

(** A store that leaves the configuration, the command name, the resource
    and the options' domain alone. *)
Definition keepsDomain (s s' : v3.createWebhookSubcommand) : Prop :=
  v3.config s' = v3.config s
  /\ v3.commandName s' = v3.commandName s
  /\ v3.resource s' = v3.resource s
  /\ domainOf s' = domainOf s.

(** A store that leaves the configuration and the options' webhook
    version alone. *)
Definition keepsWebhookVersion (s s' : v3.createWebhookSubcommand) : Prop :=
  v3.config s' = v3.config s
  /\ webhookVersionOf s' = webhookVersionOf s.

(** ** Reading and writing calls *)

(** The calls [Validate] may make: the two delegated validators and the
    two queries of the project configuration, the resource lookup and the
    version-compatibility query. *)
Definition query (X : Type) (c : call X) : bool :=
  match c with
  | OptionsValidate _ | ResourceValidate _ => true
  | GetResource _ _ | IsWebhookVersionCompatible _ _ => true
  | GetDomain _ | ReadFile _ | Scaffold _ => false
  end.

Definition queried (e : event) : bool :=
  match e with Ev c _ => query c end.

(** Collaborators that honour the contract of a query: answering one
    leaves the world as it was. *)
Definition queriesReadOnly (W : Type) (h : handler W) : Prop :=
  forall (X : Type) (c : call X) (w : W), query c = true -> snd (h X c w) = w.

(** ** The scenarios of section 8 *)
Module scenario.

Definition ctx : plugin.Context := plugin.mkContext "kubebuilder" "" "".

Definition frigateGVK : resource.GVK :=
  resource.mkGVK "ship" "example.com" "v1beta1" "Frigate".

Definition destroyerGVK : resource.GVK :=
  resource.mkGVK "ship" "example.com" "v1" "Destroyer".

(** A resource as the earlier [create api] left it: no descriptor yet. *)
Definition frigate : resource.Resource :=
  resource.mkResource frigateGVK "" None.

(** A resource with a defaulting webhook under [v1]. *)
Definition destroyer : resource.Resource :=
  resource.mkResource destroyerGVK ""
    (Some (resource.mkWebhooks "v1" true false false)).

Definition boilerplate : string * string :=
  ("hack/boilerplate.go.txt", "// Copyright").

(** [Frigate] is declared; the project is committed to no webhook
    version. *)
Definition fresh : world.World :=
  world.mkWorld (config.mkState "example.com" [frigate]) [boilerplate].

(** [Frigate] and [Destroyer] are declared; [Destroyer] commits the project
    to [v1]. *)
Definition committed : world.World :=
  world.mkWorld (config.mkState "example.com" [frigate; destroyer]) [boilerplate].

(** The same project, with the boilerplate header missing. *)
Definition headerless : world.World :=
  world.mkWorld (config.mkState "example.com" [frigate; destroyer]) [].

(** The subcommand as [Run] leaves it before validating, for the options
    given. *)
Definition bound (o : goPlugin.Options) (force : bool) : v3.createWebhookSubcommand :=
  v3.mkSubcommand (Some config.Loaded) "kubebuilder" (Some o)
    (goPlugin.NewResource o (Some config.Loaded)) force.

Definition options (version kind webhookVersion : string)
  (defaulting validation conversion : bool) : goPlugin.Options :=
  goPlugin.mkOptions "ship" "example.com" version kind "" webhookVersion
    defaulting validation conversion.

(** The options of the scenario of section 8: group [ship], version
    [v1beta1], kind [Frigate], the defaulting webhook, under the project's
    domain; the webhook version is the default. *)
Definition frigateOptions (domain : string) : goPlugin.Options :=
  goPlugin.mkOptions "ship" domain "v1beta1" "Frigate" ""
    v3.defaultWebhookVersion true false false.

(** [--group ship --version v1beta1 --kind Frigate --defaulting] *)
Definition frigateArgs : list (string * string) :=
  [("group", "ship"); ("version", "v1beta1"); ("kind", "Frigate");
   ("defaulting", "true")].

End scenario.

(** ** Compositions of the methods *)
Module composed.

(** The verdict of a run, the receiver put aside. *)
Definition verdictOf (A S : Type) (out : outcome (A * S)) : outcome A :=
  match out with
  | Done r => Done (fst r)
  | Panicked reason => Panicked reason
  end.

(** [p.Validate()] called twice in a row. *)
Definition validateTwice : v3.M (option failure * option failure) :=
  first <- v3.Validate ;;
  second <- v3.Validate ;;
  ret (first, second).


(** [p.BindFlags(fs)] on a fresh flag set, followed by the parse of the
    arguments; the parse's error is returned. *)
Definition bindAndParse (args : list (string * string)) : v3.M (option error) :=
  fs <- v3.BindFlags (pflag.NewFlagSet v3.createWebhookSubcommand) ;;
  p <- get ;;
  put (fst (pflag.Parse fs args p)) ;;;
  ret (snd (pflag.Parse fs args p)).

(** A boolean as the command line writes it. *)
Definition formatBool (b : bool) : string := if b then "true" else "false".

(** One argument for each of the nine flags. *)
Definition everyFlag (group version kind plural webhookVersion : string)
  (defaulting validation conversion force : bool) : list (string * string) :=
  [("group", group); ("version", version); ("kind", kind); ("plural", plural);
   ("webhook-version", webhookVersion);
   ("defaulting", formatBool defaulting);
   ("programmatic-validation", formatBool validation);
   ("conversion", formatBool conversion);
   ("force", formatBool force)].

(** The names [BindFlags] binds, in the order of the source. *)
Definition flagNames : list string :=
  ["group"; "version"; "kind"; "plural"; "webhook-version"; "defaulting";
   "programmatic-validation"; "conversion"; "force"].

(** The names of the three webhook-type flags. *)
Definition typeFlags : list string :=
  ["defaulting"; "programmatic-validation"; "conversion"].

(** The three webhook types the options select, once they are allocated. *)
Definition typesOf (p : v3.createWebhookSubcommand) : option (bool * bool * bool) :=
  option_map
    (fun o => (goPlugin.DoDefaulting o, goPlugin.DoValidation o, goPlugin.DoConversion o))
    (v3.options p).

End composed.
(** * Properties *)

Lemma typeSelected_webhooks (r : resource.Resource) :
  chain.typeSelected r = true -> exists w, resource.webhooks r = Some w.
Proof.
  unfold chain.typeSelected, resource.HasDefaultingWebhook,
    resource.HasValidationWebhook, resource.HasConversionWebhook.
  destruct (resource.webhooks r) as [w|]; [eauto | discriminate].
Qed.

Lemma typeSelected_guard (r : resource.Resource) :
  negb (resource.HasDefaultingWebhook r)
  && negb (resource.HasValidationWebhook r)
  && negb (resource.HasConversionWebhook r) = negb (chain.typeSelected r).
Proof.
  unfold chain.typeSelected.
  destruct (resource.HasDefaultingWebhook r), (resource.HasValidationWebhook r),
    (resource.HasConversionWebhook r); reflexivity.
Qed.

(** [Validate] under any collaborators: it makes queries only; when it
    returns the receiver is as it was; bound to options and configuration
    it does return; and when the queries are read-only the world is as it
    was. *)
Lemma Validate_frame (W : Type) (h : handler W) (w : W)
  (p : v3.createWebhookSubcommand) :
  exists tr w' out,
    interp h (v3.Validate p) w = (tr, w', out)
    /\ forallb queried tr = true
    /\ (forall a p', out = Done (a, p') -> p' = p)
    /\ (forall o c, v3.options p = Some o -> v3.config p = Some c ->
        exists verdict, out = Done (verdict, p))
    /\ (queriesReadOnly h -> w' = w).
Proof.
  unfold v3.Validate, bind, get, deref, invoke, ret, panic. cbn.
  destruct (v3.options p) as [o|]; cbn.
  2:{ do 3 eexists; split; [reflexivity|].
      repeat split; try discriminate; congruence. }
  pose proof (fun H : queriesReadOnly h => H _ (OptionsValidate o) w eq_refl) as R1.
  destruct (h _ (OptionsValidate o) w) as [[e1|] w1]; cbn in *.
  { do 3 eexists; split; [reflexivity|].
    repeat split; eauto; congruence. }
  pose proof (fun H : queriesReadOnly h =>
                H _ (ResourceValidate (v3.resource p)) w1 eq_refl) as R2.
  destruct (h _ (ResourceValidate (v3.resource p)) w1) as [[e2|] w2]; cbn in *.
  { do 3 eexists; split; [reflexivity|].
    repeat split; eauto; try congruence.
    intros H. rewrite (R2 H). auto. }
  rewrite typeSelected_guard.
  destruct (chain.typeSelected (v3.resource p)) eqn:Ht; cbn.
  2:{ do 3 eexists; split; [reflexivity|].
      repeat split; eauto; try congruence.
      intros H. rewrite (R2 H). auto. }
  destruct (v3.config p) as [c|]; cbn.
  2:{ do 3 eexists; split; [reflexivity|].
      repeat split; try discriminate; try congruence.
      intros H. rewrite (R2 H). auto. }
  pose proof (fun H : queriesReadOnly h =>
                H _ (GetResource c (resource.gvk (v3.resource p))) w2 eq_refl) as R3.
  destruct (h _ (GetResource c (resource.gvk (v3.resource p))) w2)
    as [[r|e3] w3]; cbn in *.
  2:{ do 3 eexists; split; [reflexivity|].
      repeat split; eauto; try congruence.
      intros H. rewrite (R3 H), (R2 H). auto. }
  destruct (_ && negb (v3.force p)); cbn.
  { do 3 eexists; split; [reflexivity|].
    repeat split; eauto; try congruence.
    intros H. rewrite (R3 H), (R2 H). auto. }
  destruct (typeSelected_webhooks _ Ht) as [wh Hw]. rewrite Hw. cbn.
  pose proof (fun H : queriesReadOnly h =>
                H _ (IsWebhookVersionCompatible c (resource.WebhookVersion wh))
                  w3 eq_refl) as R4.
  destruct (h _ (IsWebhookVersionCompatible c (resource.WebhookVersion wh)) w3)
    as [[|] w4]; cbn in *.
  all: do 3 eexists; (split; [reflexivity|]);
    repeat split; eauto; try congruence;
    intros H; rewrite (R4 H), (R3 H), (R2 H); auto.
Qed.

(** C1. Bound to its options and configuration, [Validate] returns without
    a panic and leaves the receiver as it was, and its run is one of the
    seven of [chain.run]: the checks are made in the order options,
    resource, webhook type, existence, duplication, version; the first that
    fails gives the failure its kind, and nothing of a later check is
    called. *)
Theorem Validate_is_the_ordered_chain :
  forall (W : Type) (h : handler W) (w : W) (p : v3.createWebhookSubcommand)
         (o : goPlugin.Options) (c : config.Config),
    v3.options p = Some o ->
    v3.config p = Some c ->
    exists tr w' verdict,
      interp h (v3.Validate p) w = (tr, w', Done (verdict, p))
      /\ chain.run p o c tr verdict.
Proof.
  intros W h w p o c Ho Hc.
  unfold v3.Validate, bind, get, deref, invoke, ret. cbn.
  rewrite Ho. cbn.
  destruct (h _ (OptionsValidate o) w) as [[e1|] w1]; cbn.
  { do 3 eexists; split; [reflexivity | constructor]. }
  destruct (h _ (ResourceValidate (v3.resource p)) w1) as [[e2|] w2]; cbn.
  { do 3 eexists; split; [reflexivity | constructor]. }
  rewrite typeSelected_guard.
  destruct (chain.typeSelected (v3.resource p)) eqn:Ht; cbn.
  2:{ do 3 eexists; split; [reflexivity | now constructor]. }
  rewrite Hc. cbn.
  destruct (h _ (GetResource c (resource.gvk (v3.resource p))) w2) as [[r|e3] w3]; cbn.
  2:{ do 3 eexists; split; [reflexivity | now constructor]. }
  change (match resource.webhooks r with
          | Some w4 => negb (resource.IsEmpty w4)
          | None => false
          end) with (config.carriesWebhooks r).
  change (config.carriesWebhooks r && negb (v3.force p))
    with (chain.duplicates r (v3.force p)).
  destruct (chain.duplicates r (v3.force p)) eqn:Hd; cbn.
  { do 3 eexists; split; [reflexivity | now constructor]. }
  destruct (typeSelected_webhooks _ Ht) as [wh Hw]. rewrite Hw. cbn.
  destruct (h _ (IsWebhookVersionCompatible c (resource.WebhookVersion wh)) w3)
    as [[|] w4]; cbn.
  - do 3 eexists; split; [reflexivity | now apply chain.passes with (declared := r)].
  - do 3 eexists; split; [reflexivity | now apply chain.stops_at_version with (declared := r)].
Qed.

(** Against the modelled collaborators, [Validate] returns the first
    failure of the six checks, and leaves the receiver and the world as
    they were. *)
Lemma Validate_first_failure
  (vo : goPlugin.Options -> option error)
  (vr : resource.Resource -> option error)
  (w : world.World) (p : v3.createWebhookSubcommand)
  (o : goPlugin.Options) (c : config.Config) :
  v3.options p = Some o ->
  v3.config p = Some c ->
  exists tr,
    interp (world.collaborators vo vr) (v3.Validate p) w
    = (tr, w, Done (chain.firstFailure (chain.checks vo vr (world.project w) p o), p)).
Proof.
  intros Ho Hc.
  unfold v3.Validate, bind, get, deref, invoke, ret. cbn.
  rewrite Ho. cbn.
  unfold chain.optionWellFormedness, chain.resourceWellFormedness,
    chain.webhookTypeSelection, chain.resourceExistence,
    chain.nonDuplicationUnlessForced, chain.versionCompatibility.
  destruct (vo o) as [e1|]; cbn; [eauto|].
  destruct (vr (v3.resource p)) as [e2|]; cbn; [eauto|].
  rewrite typeSelected_guard.
  destruct (chain.typeSelected (v3.resource p)) eqn:Ht; cbn; [|eauto].
  rewrite Hc. cbn.
  destruct (config.GetResource (world.project w) (resource.gvk (v3.resource p)))
    as [r|e3]; cbn; [|eauto].
  change (match resource.webhooks r with
          | Some w4 => negb (resource.IsEmpty w4)
          | None => false
          end) with (config.carriesWebhooks r).
  change (config.carriesWebhooks r && negb (v3.force p))
    with (chain.duplicates r (v3.force p)).
  destruct (chain.duplicates r (v3.force p)); cbn; [eauto|].
  destruct (typeSelected_webhooks _ Ht) as [wh Hw]. rewrite Hw. cbn.
  destruct (config.IsWebhookVersionCompatible (world.project w)
              (resource.WebhookVersion wh)); cbn; eauto.
Qed.

(** C2 (as amended). For all options in which the three webhook types are
    off, and whatever their other fields, [Validate] on the resource built
    from them fails with [NoWebhookTypeSelected], provided the two
    well-formedness checks that precede the selection check pass.  The
    collaborators are arbitrary: only the answers of the two validators are
    constrained. *)
Theorem no_webhook_type_selected :
  forall (W : Type) (h : handler W) (w : W) (p : v3.createWebhookSubcommand)
         (o : goPlugin.Options),
    v3.options p = Some o ->
    v3.resource p = goPlugin.NewResource o (v3.config p) ->
    goPlugin.DoDefaulting o = false ->
    goPlugin.DoValidation o = false ->
    goPlugin.DoConversion o = false ->
    fst (h _ (OptionsValidate o) w) = None ->
    fst (h _ (ResourceValidate (v3.resource p))
           (snd (h _ (OptionsValidate o) w))) = None ->
    snd (interp h (v3.Validate p) w)
    = Done (Some (chain.errNoWebhookTypeSelected (v3.commandName p)), p).
Proof.
  intros W h w p o Ho Hr Hd Hv Hc H1 H2.
  assert (Ht : chain.typeSelected (v3.resource p) = false).
  { rewrite Hr. unfold chain.typeSelected, resource.HasDefaultingWebhook,
      resource.HasValidationWebhook, resource.HasConversionWebhook.
    cbn. now rewrite Hd, Hv, Hc. }
  unfold v3.Validate, bind, get, deref, invoke, ret. cbn.
  rewrite Ho. cbn.
  destruct (h _ (OptionsValidate o) w) as [a1 w1]. cbn in H1, H2. subst a1. cbn.
  destruct (h _ (ResourceValidate (v3.resource p)) w1) as [a2 w2].
  cbn in H2. subst a2. cbn.
  rewrite typeSelected_guard, Ht. reflexivity.
Qed.

(** C2, the claim as stated fails: with the three webhook types off and no
    kind given, the chain stops at its first check, and the failure is an
    [InvalidOption], not a [NoWebhookTypeSelected].  The first conjunct is
    the same input reached through a whole invocation,
    [create webhook --group ship --version v1beta1]. *)
Lemma no_webhook_type_but_invalid_option :
  snd (interp world.standard
         (invocation config.Loaded scenario.ctx
            [("group", "ship"); ("version", "v1beta1")] v3.zero)
         scenario.fresh)
  = Done (inr (Some (Failure InvalidOption (Errorf "kind cannot be empty" []))),
          scenario.bound (scenario.options "v1beta1" "" "v1" false false false) false)
  /\ snd (interp world.standard
            (v3.Validate
               (scenario.bound (scenario.options "v1beta1" "" "v1" false false false) false))
            scenario.fresh)
     = Done (Some (Failure InvalidOption (Errorf "kind cannot be empty" [])),
             scenario.bound (scenario.options "v1beta1" "" "v1" false false false) false)
  /\ Failure InvalidOption (Errorf "kind cannot be empty" [])
     <> chain.errNoWebhookTypeSelected "kubebuilder".
Proof.
  split; [reflexivity | split; [reflexivity | discriminate]].
Qed.

Lemma no_webhook_type_selected_witness :
  snd (interp world.standard
         (v3.Validate
            (scenario.bound (scenario.options "v1beta1" "Frigate" "v1" false false false) true))
         scenario.committed)
  = Done (Some (chain.errNoWebhookTypeSelected "kubebuilder"),
          scenario.bound (scenario.options "v1beta1" "Frigate" "v1" false false false) true).
Proof.
  apply (@no_webhook_type_selected _ world.standard scenario.committed
           (scenario.bound (scenario.options "v1beta1" "Frigate" "v1" false false false) true)
           (scenario.options "v1beta1" "Frigate" "v1" false false false));
    reflexivity.
Defined.

(** ** Facts about the modelled configuration *)

Lemma GVK_eqb_eq (a b : resource.GVK) :
  resource.GVK_eqb a b = true <-> a = b.
Proof.
  unfold resource.GVK_eqb. destruct a, b; cbn.
  rewrite !andb_true_iff, !String.eqb_eq.
  split.
  - intros [[[-> ->] ->] ->]. reflexivity.
  - intros H. injection H as -> -> -> ->. repeat split.
Qed.

Lemma GetResource_declared (st : config.State) (id : resource.GVK)
  (r : resource.Resource) :
  config.GetResource st id = inl r ->
  In r (config.Resources st) /\ resource.gvk r = id.
Proof.
  unfold config.GetResource.
  destruct (find _ _) as [r0|] eqn:Hf; [|discriminate].
  intros H. injection H as <-.
  apply find_some in Hf. destruct Hf as [Hin Heq].
  apply GVK_eqb_eq in Heq. now split.
Qed.

Lemma GetResource_undeclared (st : config.State) (id : resource.GVK) :
  ~ In id (map resource.gvk (config.Resources st)) ->
  exists err, config.GetResource st id = inr err.
Proof.
  intros Hn. unfold config.GetResource.
  destruct (find _ _) as [r0|] eqn:Hf; [|eauto].
  exfalso. apply Hn.
  apply find_some in Hf. destruct Hf as [Hin Heq].
  apply GVK_eqb_eq in Heq. subst id. now apply in_map.
Qed.

Lemma uncommitted_no_webhooks (st : config.State) (r : resource.Resource) :
  config.ProjectWebhookPolicy st = None ->
  In r (config.Resources st) ->
  config.carriesWebhooks r = false.
Proof.
  unfold config.ProjectWebhookPolicy. intros Hp Hin.
  destruct (find config.carriesWebhooks (config.Resources st)) as [r0|] eqn:Hf.
  - apply find_some in Hf. destruct Hf as [_ Hc].
    unfold config.carriesWebhooks in Hc.
    destruct (resource.webhooks r0); [discriminate Hp | discriminate Hc].
  - now apply (find_none _ _ Hf).
Qed.

Lemma uncommitted_compatible (st : config.State) (v : string) :
  config.ProjectWebhookPolicy st = None ->
  config.IsWebhookVersionCompatible st v = true.
Proof.
  unfold config.IsWebhookVersionCompatible. now intros ->.
Qed.

(** C4. For every identity that no resource of the project configuration
    is declared under, [Validate] fails with [ResourceNotFound], provided
    the three earlier checks of the chain pass. *)
Theorem undeclared_resource_is_not_found :
  forall (vo : goPlugin.Options -> option error)
         (vr : resource.Resource -> option error)
         (w : world.World) (p : v3.createWebhookSubcommand)
         (o : goPlugin.Options) (c : config.Config),
    v3.options p = Some o ->
    v3.config p = Some c ->
    ~ In (resource.gvk (v3.resource p))
         (map resource.gvk (config.Resources (world.project w))) ->
    vo o = None ->
    vr (v3.resource p) = None ->
    chain.typeSelected (v3.resource p) = true ->
    snd (interp (world.collaborators vo vr) (v3.Validate p) w)
    = Done (Some (chain.errResourceNotFound (v3.commandName p)), p).
Proof.
  intros vo vr w p o c Ho Hc Habsent H1 H2 H3.
  destruct (Validate_first_failure vo vr w p Ho Hc) as [tr ->]. cbn [snd].
  destruct (GetResource_undeclared _ _ Habsent) as [err Hg].
  unfold chain.checks, chain.optionWellFormedness, chain.resourceWellFormedness,
    chain.webhookTypeSelection, chain.resourceExistence.
  rewrite H1, H2, H3, Hg. reflexivity.
Qed.

Lemma undeclared_resource_is_not_found_witness :
  snd (interp world.standard
         (v3.Validate
            (scenario.bound (scenario.options "v1" "Cruiser" "v1" true false false) false))
         scenario.committed)
  = Done (Some (chain.errResourceNotFound "kubebuilder"),
          scenario.bound (scenario.options "v1" "Cruiser" "v1" true false false) false).
Proof.
  apply (@undeclared_resource_is_not_found goPlugin.Validate resource.Validate
           scenario.committed
           (scenario.bound (scenario.options "v1" "Cruiser" "v1" true false false) false)
           (scenario.options "v1" "Cruiser" "v1" true false false) config.Loaded);
    try reflexivity.
  cbn. intros [H|[H|[]]]; discriminate H.
Defined.

(** C3. Let the project configuration declare, under the identity asked
    for, a resource that carries a non-empty webhook descriptor.  Without
    the force flag [Validate] always fails, and with [WebhookAlreadyExists]
    once the three checks before it have passed.  With the force flag it
    never fails with [WebhookAlreadyExists]: its verdict is the first
    failure of the remaining checks, and success when they all pass. *)
Theorem existing_webhook_requires_force :
  forall (vo : goPlugin.Options -> option error)
         (vr : resource.Resource -> option error)
         (w : world.World) (p : v3.createWebhookSubcommand)
         (o : goPlugin.Options) (c : config.Config)
         (declared : resource.Resource),
    v3.options p = Some o ->
    v3.config p = Some c ->
    config.GetResource (world.project w) (resource.gvk (v3.resource p))
    = inl declared ->
    config.carriesWebhooks declared = true ->
    exists verdict,
      snd (interp (world.collaborators vo vr) (v3.Validate p) w)
      = Done (verdict, p)
      /\ (v3.force p = false ->
          verdict <> None
          /\ (vo o = None -> vr (v3.resource p) = None ->
              chain.typeSelected (v3.resource p) = true ->
              verdict = Some chain.errWebhookAlreadyExists))
      /\ (v3.force p = true ->
          (forall f, verdict = Some f -> kind f <> WebhookAlreadyExists)
          /\ verdict
             = chain.firstFailure
                 [chain.optionWellFormedness vo o;
                  chain.resourceWellFormedness vr p;
                  chain.webhookTypeSelection p;
                  chain.versionCompatibility (world.project w) p]).
Proof.
  intros vo vr w p o c declared Ho Hc Hg Hcarry.
  destruct (Validate_first_failure vo vr w p Ho Hc) as [tr ->]. cbn [snd].
  eexists; split; [reflexivity|].
  unfold chain.checks, chain.optionWellFormedness, chain.resourceWellFormedness,
    chain.webhookTypeSelection, chain.resourceExistence,
    chain.nonDuplicationUnlessForced, chain.versionCompatibility, chain.duplicates.
  rewrite Hg, Hcarry.
  split; intros Hf; rewrite Hf; cbn [negb andb].
  - split.
    + destruct (vo o); [discriminate|].
      destruct (vr (v3.resource p)); [discriminate|].
      destruct (chain.typeSelected (v3.resource p)); discriminate.
    + intros -> -> ->. reflexivity.
  - split.
    + intros f.
      destruct (vo o); cbn; [intros [= <-]; discriminate|].
      destruct (vr (v3.resource p)); cbn; [intros [= <-]; discriminate|].
      destruct (chain.typeSelected (v3.resource p)); cbn;
        [|intros [= <-]; discriminate].
      destruct (resource.webhooks (v3.resource p)) as [wh|]; [|discriminate].
      destruct (config.IsWebhookVersionCompatible _ _); [discriminate|].
      intros [= <-]; discriminate.
    + destruct (vo o); cbn; [reflexivity|].
      destruct (vr (v3.resource p)); cbn; [reflexivity|].
      destruct (chain.typeSelected (v3.resource p)); reflexivity.
Qed.

(** C5. Let the project be committed to webhook version [v1], and let the
    resource be built from the options as [Run] builds it.  A request for
    [v1beta1] never succeeds: it fails with [WebhookVersionConflict] when
    the five earlier checks pass, and with the first failure among them
    otherwise.  A request for [v1] passes the version check: the verdict is
    that of the five earlier checks, success when they pass. *)
Theorem committed_v1_decides_the_version :
  forall (vo : goPlugin.Options -> option error)
         (vr : resource.Resource -> option error)
         (w : world.World) (p : v3.createWebhookSubcommand)
         (o : goPlugin.Options) (c : config.Config),
    v3.options p = Some o ->
    v3.config p = Some c ->
    v3.resource p = goPlugin.NewResource o (v3.config p) ->
    config.ProjectWebhookPolicy (world.project w) = Some "v1" ->
    exists verdict,
      snd (interp (world.collaborators vo vr) (v3.Validate p) w)
      = Done (verdict, p)
      /\ (goPlugin.WebhookVersion o = "v1beta1" ->
          verdict
          = match chain.firstFailure (chain.beforeVersion vo vr (world.project w) p o) with
            | Some earlier => Some earlier
            | None => Some (chain.errWebhookVersionConflict "v1beta1")
            end)
      /\ (goPlugin.WebhookVersion o = "v1" ->
          verdict
          = chain.firstFailure (chain.beforeVersion vo vr (world.project w) p o)).
Proof.
  intros vo vr w p o c Ho Hc Hr Hpol.
  destruct (Validate_first_failure vo vr w p Ho Hc) as [tr ->]. cbn [snd].
  eexists; split; [reflexivity|].
  unfold chain.checks, chain.beforeVersion.
  assert (Hv : forall v, goPlugin.WebhookVersion o = v ->
             chain.versionCompatibility (world.project w) p
             = if String.eqb v "v1" then None
               else Some (chain.errWebhookVersionConflict v)).
  { intros v <-. unfold chain.versionCompatibility, config.IsWebhookVersionCompatible.
    rewrite Hr, Hpol. reflexivity. }
  split; intros Hreq; rewrite (Hv _ Hreq); cbn [String.eqb Ascii.eqb Bool.eqb];
    cbn [chain.firstFailure];
    repeat (match goal with
            | |- context [match ?x with _ => _ end] => destruct x
            end; try reflexivity).
Qed.

(** C9. With the force flag set, the verdict of [Validate] is the first
    failure of the chain without its duplication check: the two
    well-formedness checks, the selection check and the existence check
    still run and still fail the invocation.  In particular a requested
    version that is incompatible with the committed one never succeeds,
    and fails with [WebhookVersionConflict] when those four pass.  Last,
    the flag changes nothing else: whenever the unforced verdict is not
    [WebhookAlreadyExists], the forced verdict is the same. *)
Theorem force_bypasses_only_the_duplication_check :
  forall (vo : goPlugin.Options -> option error)
         (vr : resource.Resource -> option error)
         (w : world.World) (p : v3.createWebhookSubcommand)
         (o : goPlugin.Options) (c : config.Config),
    v3.options p = Some o ->
    v3.config p = Some c ->
    v3.force p = true ->
    exists verdict,
      snd (interp (world.collaborators vo vr) (v3.Validate p) w)
      = Done (verdict, p)
      /\ verdict
         = chain.firstFailure
             (chain.beforeDuplication vo vr (world.project w) p o
              ++ [chain.versionCompatibility (world.project w) p])%list
      /\ (forall wh,
            resource.webhooks (v3.resource p) = Some wh ->
            config.IsWebhookVersionCompatible (world.project w)
              (resource.WebhookVersion wh) = false ->
            verdict <> None
            /\ (chain.firstFailure
                  (chain.beforeDuplication vo vr (world.project w) p o) = None ->
                verdict
                = Some (chain.errWebhookVersionConflict (resource.WebhookVersion wh))))
      /\ (forall unforced,
            snd (interp (world.collaborators vo vr) (v3.Validate (v3.set_force false p)) w)
            = Done (unforced, v3.set_force false p) ->
            unforced <> Some chain.errWebhookAlreadyExists ->
            verdict = unforced).
Proof.
  intros vo vr w p o c Ho Hc Hf.
  destruct (Validate_first_failure vo vr w p Ho Hc) as [tr ->]. cbn [snd].
  eexists; split; [reflexivity|].
  assert (Hdup : chain.nonDuplicationUnlessForced (world.project w) p = None).
  { unfold chain.nonDuplicationUnlessForced, chain.duplicates. rewrite Hf.
    destruct (config.GetResource _ _); [|reflexivity].
    now rewrite andb_false_r. }
  assert (Heq : chain.firstFailure (chain.checks vo vr (world.project w) p o)
                = chain.firstFailure
                    (chain.beforeDuplication vo vr (world.project w) p o
                     ++ [chain.versionCompatibility (world.project w) p])%list).
  { unfold chain.checks, chain.beforeDuplication. cbn [app]. rewrite Hdup.
    cbn [chain.firstFailure].
    repeat (match goal with
            | |- context [match ?x with _ => _ end] => destruct x
            end; try reflexivity). }
  split; [exact Heq|]. split.
  - intros wh Hw Hin. rewrite Heq.
    unfold chain.beforeDuplication. cbn [app chain.firstFailure].
    assert (Hv : chain.versionCompatibility (world.project w) p
                 = Some (chain.errWebhookVersionConflict (resource.WebhookVersion wh))).
    { unfold chain.versionCompatibility. now rewrite Hw, Hin. }
    rewrite Hv.
    split.
    + repeat (match goal with
              | |- context [match ?x with _ => _ end] => destruct x
              end; try discriminate).
    + repeat (match goal with
              | |- context [match ?x with _ => _ end] => destruct x
              end; try discriminate; try reflexivity).
  - intros unforced Hrun Hne.
    destruct (Validate_first_failure vo vr w (v3.set_force false p)
                (o := o) (c := c)) as [tr' Hrun']; [exact Ho | exact Hc |].
    rewrite Hrun' in Hrun. cbn [snd] in Hrun.
    injection Hrun as Hu. subst unforced.
    unfold chain.checks in *.
    unfold chain.resourceWellFormedness, chain.webhookTypeSelection,
      chain.resourceExistence, chain.nonDuplicationUnlessForced,
      chain.versionCompatibility, chain.duplicates in *.
    cbn [v3.set_force v3.resource v3.commandName v3.force] in *.
    rewrite Hf.
    destruct (chain.optionWellFormedness vo o); [reflexivity|].
    destruct (option_map _ _); [reflexivity|].
    destruct (chain.typeSelected _); [|reflexivity].
    destruct (config.GetResource _ _); [|reflexivity].
    rewrite andb_false_r, andb_true_r in *.
    destruct (config.carriesWebhooks _); [|reflexivity].
    cbn in Hne. congruence.
Qed.

(** ** Sequencing *)

Lemma interp_bind (W A B : Type) (h : handler W) (m : Prog A) (k : A -> Prog B) :
  forall w : W,
    interp h (Prog_bind m k) w
    = match interp h m w with
      | (tr, w1, Done a) =>
          let '(tr2, w2, out) := interp h (k a) w1 in ((tr ++ tr2)%list, w2, out)
      | (tr, w1, Panicked reason) => (tr, w1, Panicked reason)
      end.
Proof.
  induction m as [a|reason|X c k' IH]; intros w; cbn.
  - destruct (interp h (k a) w) as [[tr2 w2] out]. reflexivity.
  - reflexivity.
  - destruct (h X c w) as [x w1]. rewrite IH.
    destruct (interp h (k' x) w1) as [[tr w2] [a|reason]]; [|reflexivity].
    destruct (interp h (k a) w2) as [[tr2 w3] out]. reflexivity.
Qed.

(** C8. [GetScaffolder] makes one call, the read of
    [hack/boilerplate.go.txt], and leaves the receiver as it was.  When the
    read fails it fails with [BoilerplateLoadFailure]; otherwise it returns
    the scaffolder made of the configuration, the text read, the resource
    and the force flag.  So it fails exactly when the read does. *)
Theorem GetScaffolder_fails_exactly_when_the_read_does :
  forall (W : Type) (h : handler W) (w : W) (p : v3.createWebhookSubcommand),
    interp h (v3.GetScaffolder p) w
    = ([Ev (ReadFile "hack/boilerplate.go.txt")
           (fst (h _ (ReadFile "hack/boilerplate.go.txt") w))],
       snd (h _ (ReadFile "hack/boilerplate.go.txt") w),
       Done (match fst (h _ (ReadFile "hack/boilerplate.go.txt") w) with
             | inl bp =>
                 inl (scaffolds.NewWebhookScaffolder
                        (v3.config p) bp (v3.resource p) (v3.force p))
             | inr err =>
                 inr (Failure BoilerplateLoadFailure
                        (Errorf "unable to load boilerplate: %v" [OpError err]))
             end, p))
    /\ ((exists f, snd (interp h (v3.GetScaffolder p) w) = Done (inr f, p))
        <-> (exists err, fst (h _ (ReadFile "hack/boilerplate.go.txt") w) = inr err)).
Proof.
  intros W h w p.
  unfold v3.GetScaffolder, bind, get, invoke, ret. cbn.
  destruct (h _ (ReadFile "hack/boilerplate.go.txt") w) as [[bp|err] w1]; cbn.
  - split; [reflexivity|]. split; intros [x Hx]; discriminate Hx.
  - split; [reflexivity|]. split; eauto.
Qed.

(** [Run] when its validation fails: it makes the calls of [Validate] and
    no other, and returns the failure. *)
Lemma Run_stops_at_failed_validation (W : Type) (h : handler W) (w : W)
  (p : v3.createWebhookSubcommand) (o : goPlugin.Options)
  (tr : list event) (w' : W) (f : failure) :
  v3.options p = Some o ->
  interp h (v3.Validate (v3.set_resource (goPlugin.NewResource o (v3.config p)) p)) w
  = (tr, w', Done (Some f, v3.set_resource (goPlugin.NewResource o (v3.config p)) p)) ->
  interp h (v3.Run p) w
  = (tr, w', Done (Some f, v3.set_resource (goPlugin.NewResource o (v3.config p)) p)).
Proof.
  intros Ho Hv.
  unfold v3.Run, bind, get, deref, v3.assign.
  cbn -[v3.set_resource v3.Validate]. rewrite Ho.
  cbn -[v3.set_resource v3.Validate].
  unfold cmdutil.Run, bind. cbn [cmdutil.Validate v3.RunOptions].
  rewrite interp_bind, Hv. cbn -[v3.set_resource]. now rewrite app_nil_r.
Qed.

(** C7. Let the queries be read-only, as the contract of the project
    configuration has them.  [Validate] then makes queries only, leaves the
    world as it was and, when it returns, the receiver too.  And when the
    validation of the resource [Run] built fails, [Run] returns that
    failure having made no call but those queries: no boilerplate is read,
    no scaffolder is made or run, and the world is as it was. *)
Theorem failed_validation_touches_nothing :
  forall (W : Type) (h : handler W) (w : W)
         (p : v3.createWebhookSubcommand) (o : goPlugin.Options),
    queriesReadOnly h ->
    v3.options p = Some o ->
    (exists tr out,
        interp h (v3.Validate p) w = (tr, w, out)
        /\ forallb queried tr = true
        /\ forall a p', out = Done (a, p') -> p' = p)
    /\ (forall f,
          snd (interp h (v3.Validate
                           (v3.set_resource (goPlugin.NewResource o (v3.config p)) p)) w)
          = Done (Some f, v3.set_resource (goPlugin.NewResource o (v3.config p)) p) ->
          exists tr,
            interp h (v3.Run p) w
            = (tr, w, Done (Some f, v3.set_resource (goPlugin.NewResource o (v3.config p)) p))
            /\ forallb queried tr = true).
Proof.
  intros W h w p o Hro Ho. split.
  - destruct (Validate_frame h w p) as (tr & w' & out & Hrun & Hq & Hp & _ & Hw).
    rewrite (Hw Hro) in Hrun. eauto.
  - intros f Hf.
    destruct (Validate_frame h w
                (v3.set_resource (goPlugin.NewResource o (v3.config p)) p))
      as (tr & w' & out & Hrun & Hq & _ & _ & Hw).
    rewrite (Hw Hro) in Hrun. rewrite Hrun in Hf. cbn [snd] in Hf. subst out.
    exists tr. split; [|exact Hq].
    now apply Run_stops_at_failed_validation.
Qed.

(** ** Flag binding and parsing *)

Lemma through_options_keepsDomain
  (f : goPlugin.Options -> goPlugin.Options) (s : v3.createWebhookSubcommand) :
  (forall o, goPlugin.Domain (f o) = goPlugin.Domain o) ->
  keepsDomain s (v3.through_options f s).
Proof.
  intros Hf. unfold keepsDomain, v3.through_options, domainOf.
  destruct (v3.options s) as [o|] eqn:Ho; cbn; rewrite ?Ho; cbn;
    rewrite ?Hf; auto.
Qed.

Lemma keepsDomain_refl (s : v3.createWebhookSubcommand) : keepsDomain s s.
Proof. unfold keepsDomain; auto. Qed.

Lemma keepsDomain_trans (s1 s2 s3 : v3.createWebhookSubcommand) :
  keepsDomain s1 s2 -> keepsDomain s2 s3 -> keepsDomain s1 s3.
Proof.
  unfold keepsDomain. intros (A1 & A2 & A3 & A4) (B1 & B2 & B3 & B4).
  repeat split; congruence.
Qed.

Lemma keepsWebhookVersion_refl (s : v3.createWebhookSubcommand) :
  keepsWebhookVersion s s.
Proof. unfold keepsWebhookVersion; auto. Qed.

Lemma keepsWebhookVersion_trans (s1 s2 s3 : v3.createWebhookSubcommand) :
  keepsWebhookVersion s1 s2 -> keepsWebhookVersion s2 s3 ->
  keepsWebhookVersion s1 s3.
Proof.
  unfold keepsWebhookVersion. intros (A1 & A2) (B1 & B2). split; congruence.
Qed.

Lemma through_options_keepsWebhookVersion
  (f : goPlugin.Options -> goPlugin.Options) (s : v3.createWebhookSubcommand) :
  (forall o, goPlugin.WebhookVersion (f o) = goPlugin.WebhookVersion o) ->
  keepsWebhookVersion s (v3.through_options f s).
Proof.
  intros Hf. unfold keepsWebhookVersion, v3.through_options, webhookVersionOf.
  destruct (v3.options s) as [o|] eqn:Ho; cbn; rewrite ?Ho; cbn;
    rewrite ?Hf; auto.
Qed.

(** [BindFlags] on a fresh flag set: it asks the configuration for its
    domain, stores it in freshly allocated options besides the defaults of
    the flags, and binds nine flags, none of which stores into the
    domain. *)
Lemma BindFlags_binds (W : Type) (h : handler W) (w : W)
  (p : v3.createWebhookSubcommand) (c : config.Config) :
  v3.config p = Some c ->
  exists fs,
    interp h (v3.BindFlags (pflag.NewFlagSet v3.createWebhookSubcommand) p) w
    = ([Ev (GetDomain c) (fst (h _ (GetDomain c) w))],
       snd (h _ (GetDomain c) w),
       Done (fs,
             v3.mkSubcommand (Some c) (v3.commandName p)
               (Some (goPlugin.mkOptions "" (fst (h _ (GetDomain c) w)) "" "" ""
                        v3.defaultWebhookVersion false false false))
               (v3.resource p) false))
    /\ map (@pflag.Name _) fs
       = ["group"; "version"; "kind"; "plural"; "webhook-version"; "defaulting";
          "programmatic-validation"; "conversion"; "force"]
    /\ (forall f value s s',
          In f fs -> pflag.Value f value s = inl s' -> keepsDomain s s')
    /\ (forall f value s s',
          In f fs -> pflag.Name f <> "webhook-version" ->
          pflag.Value f value s = inl s' -> keepsWebhookVersion s s').
Proof.
  intros Hc. destruct p as [cfg name opts res frc]. cbn in Hc. subst cfg.
  unfold v3.BindFlags, bind, get, deref, invoke, ret, v3.assign,
    pflag.StringVar, pflag.BoolVar, pflag.NewFlagSet.
  cbn.
  destruct (h _ (GetDomain c) w) as [d w1]. cbn.
  eexists. split; [reflexivity|]. split; [reflexivity|]. split.
  - intros f value s s' Hin Hv.
    cbn in Hin.
    repeat (destruct Hin as [<-|Hin]; [cbn in Hv|]); try contradiction.
    all: try (destruct (pflag.ParseBool value); [|discriminate Hv]).
    all: injection Hv as <-.
    all: try (apply through_options_keepsDomain; intros; reflexivity).
    unfold keepsDomain, domainOf; cbn; auto.
  - intros f value s s' Hin Hname Hv.
    cbn in Hin.
    repeat (destruct Hin as [<-|Hin]; [cbn in Hv, Hname|]); try contradiction.
    all: try (exfalso; apply Hname; reflexivity).
    all: try (destruct (pflag.ParseBool value); [|discriminate Hv]).
    all: injection Hv as <-.
    all: unfold v3.store_Group, v3.store_Version, v3.store_Kind, v3.store_Plural,
      v3.store_DoDefaulting, v3.store_DoValidation, v3.store_DoConversion.
    all: try (apply through_options_keepsWebhookVersion; intros; reflexivity).
    unfold keepsWebhookVersion, webhookVersionOf; cbn; auto.
Qed.

(** What every flag a name may select keeps, the parse of arguments under
    such names keeps. *)
Lemma Parse_invariant (fs : pflag.FlagSet v3.createWebhookSubcommand)
  (allowed : string -> Prop)
  (R : v3.createWebhookSubcommand -> v3.createWebhookSubcommand -> Prop) :
  (forall s, R s s) ->
  (forall s1 s2 s3, R s1 s2 -> R s2 s3 -> R s1 s3) ->
  (forall f value s s',
      In f fs -> allowed (pflag.Name f) ->
      pflag.Value f value s = inl s' -> R s s') ->
  forall args s,
    Forall allowed (map fst args) -> R s (fst (pflag.Parse fs args s)).
Proof.
  intros Hrefl Htrans Hfs.
  induction args as [|[name value] rest IH]; intros s Hall; cbn.
  - apply Hrefl.
  - inversion Hall as [|? ? Hname Hrest]; subst.
    unfold pflag.Set_, pflag.Lookup.
    destruct (find _ fs) as [f|] eqn:Hf; cbn; [|apply Hrefl].
    apply find_some in Hf. destruct Hf as [Hin Heq].
    apply String.eqb_eq in Heq.
    destruct (pflag.Value f value s) as [s'|err] eqn:Hv; cbn; [|apply Hrefl].
    apply Htrans with s'; [|now apply IH].
    apply (Hfs f value); auto. cbn in Hname. now rewrite Heq.
Qed.

Lemma Parse_unknown_flag (fs : pflag.FlagSet v3.createWebhookSubcommand)
  (name : string) :
  ~ In name (map (@pflag.Name _) fs) ->
  forall args s,
    In name (map fst args) -> snd (pflag.Parse fs args s) <> None.
Proof.
  intros Hn. induction args as [|[n v] rest IH]; intros s Hin; cbn in *.
  - contradiction.
  - unfold pflag.Set_ at 1. unfold pflag.Lookup.
    destruct (find _ fs) as [f|] eqn:Hf.
    + destruct (pflag.Value f v s) as [s'|err]; cbn; [|discriminate].
      apply IH. destruct Hin as [->|Hin]; [|exact Hin].
      exfalso. apply Hn. apply find_some in Hf. destruct Hf as [Hf1 Hf2].
      apply String.eqb_eq in Hf2. subst name. now apply in_map.
    + cbn. discriminate.
Qed.

(** [Run] bound to options and configuration: it returns, and leaves in
    the receiver the resource it built from the options. *)
Lemma Run_returns (W : Type) (h : handler W) (w : W)
  (p : v3.createWebhookSubcommand) (o : goPlugin.Options) (c : config.Config) :
  v3.options p = Some o ->
  v3.config p = Some c ->
  exists tr w' res,
    interp h (v3.Run p) w
    = (tr, w', Done (res, v3.set_resource (goPlugin.NewResource o (v3.config p)) p)).
Proof.
  intros Ho Hc.
  destruct (Validate_frame h w
              (v3.set_resource (goPlugin.NewResource o (v3.config p)) p))
    as (tr & w1 & out & Hrun & _ & _ & Hret & _).
  destruct (Hret o c) as [verdict ->]; [exact Ho | exact Hc |].
  unfold v3.Run, bind, get, deref, v3.assign.
  cbn -[v3.set_resource v3.Validate]. rewrite Ho.
  cbn -[v3.set_resource v3.Validate].
  unfold cmdutil.Run, bind.
  cbn [cmdutil.Validate cmdutil.GetScaffolder cmdutil.PostScaffold v3.RunOptions].
  rewrite interp_bind, Hrun. cbn -[v3.set_resource].
  destruct verdict as [f|]; cbn -[v3.set_resource]; [eauto|].
  unfold v3.GetScaffolder, bind, get, invoke, ret.
  cbn -[v3.set_resource].
  destruct (h _ (ReadFile _) w1) as [[bp|err] w2];
    cbn -[v3.set_resource]; [|eauto].
  destruct (h _ (Scaffold _) w2) as [[err|] w3];
    cbn -[v3.set_resource]; eauto.
Qed.

(** C10. In every invocation the domain of the options, and of the
    resource [Run] builds from them, is the one the injected configuration
    answered when the flags were bound: no argument can change it, and an
    argument that names a [domain] flag fails the parse, for no such flag
    is bound. *)
Theorem resource_domain_is_the_configurations :
  forall (W : Type) (h : handler W) (w : W) (c : config.Config)
         (ctx : plugin.Context) (args : list (string * string))
         (p0 : v3.createWebhookSubcommand),
    exists tr w' res p' o,
      interp h (invocation c ctx args p0) w
      = (Ev (GetDomain c) (fst (h _ (GetDomain c) w)) :: tr, w', Done (res, p'))
      /\ v3.options p' = Some o
      /\ goPlugin.Domain o = fst (h _ (GetDomain c) w)
      /\ (forall verdict,
            res = inr verdict ->
            resource.Domain (resource.gvk (v3.resource p'))
            = fst (h _ (GetDomain c) w))
      /\ (In "domain" (map fst args) -> exists err, res = inl (Some err)).
Proof.
  intros W h w c ctx args p0.
  unfold invocation. unfold bind at 1. unfold v3.InjectConfig, v3.assign.
  cbn [Prog_bind fst snd].
  unfold bind at 1. rewrite interp_bind.
  destruct (BindFlags_binds h w (v3.set_config (Some c) p0) (c := c) eq_refl)
    as (fs & -> & Hnames & Hkeep & _).
  unfold bind, v3.UpdateContext, v3.assign, get, put, ret.
  cbn -[pflag.Parse v3.Run v3.set_commandName].
  set (p1 := v3.set_commandName _ _).
  assert (K : keepsDomain p1 (fst (pflag.Parse fs args p1))).
  { apply Parse_invariant with (allowed := fun _ => True).
    - apply keepsDomain_refl.
    - apply keepsDomain_trans.
    - intros f value s s' Hin _. now apply Hkeep.
    - apply Forall_forall. trivial. }
  destruct K as (K1 & K2 & K3 & K4).
  assert (Hunknown : In "domain" (map fst args) -> snd (pflag.Parse fs args p1) <> None).
  { apply Parse_unknown_flag. rewrite Hnames. cbn.
    intros H; repeat (destruct H as [H|H]; [discriminate H|]); exact H. }
  assert (Hd : exists o2, v3.options (fst (pflag.Parse fs args p1)) = Some o2
                     /\ goPlugin.Domain o2 = fst (h _ (GetDomain c) w)).
  { unfold domainOf in K4. cbn in K4.
    destruct (v3.options (fst (pflag.Parse fs args p1))) as [o2|];
      [|discriminate K4].
    injection K4 as K4. eauto. }
  destruct Hd as (o2 & Ho2 & Hdom).
  destruct (pflag.Parse fs args p1) as [p2 [err|]]; cbn [fst snd] in *.
  - cbn. exists [], (snd (h _ (GetDomain c) w)), (inl (Some err)), p2, o2.
    repeat split; eauto. discriminate.
  - destruct (Run_returns h (snd (h _ (GetDomain c) w)) p2 (o := o2) (c := c))
      as (tr & w' & res & Hrun); [exact Ho2 | now rewrite K1 |].
    rewrite interp_bind, Hrun. cbn.
    exists (tr ++ [])%list, w', (inr res),
      (v3.set_resource (goPlugin.NewResource o2 (v3.config p2)) p2), o2.
    split; [reflexivity|]. cbn.
    repeat split; auto.
    intros Hin. now destruct (Hunknown Hin).
Qed.


(** [BindFlags] on a fresh flag set, with the flag set written out. *)
Lemma BindFlags_boundFlags (W : Type) (h : handler W) (w : W)
  (p : v3.createWebhookSubcommand) (c : config.Config) :
  v3.config p = Some c ->
  interp h (v3.BindFlags (pflag.NewFlagSet v3.createWebhookSubcommand) p) w
  = ([Ev (GetDomain c) (fst (h _ (GetDomain c) w))],
     snd (h _ (GetDomain c) w),
     Done (boundFlags,
           v3.mkSubcommand (Some c) (v3.commandName p)
             (Some (goPlugin.mkOptions "" (fst (h _ (GetDomain c) w)) "" "" ""
                      v3.defaultWebhookVersion false false false))
             (v3.resource p) false)).
Proof.
  intros Hc. destruct p as [cfg name opts res frc]. cbn in Hc. subst cfg.
  unfold v3.BindFlags, bind, get, deref, invoke, ret, v3.assign,
    pflag.StringVar, pflag.BoolVar, pflag.NewFlagSet.
  cbn.
  destruct (h _ (GetDomain c) w) as [d w1]. reflexivity.
Qed.

(** The arguments of the scenario, parsed over the defaults. *)
Lemma Parse_frigateArgs (c : option config.Config) (name domain : string)
  (res : resource.Resource) :
  pflag.Parse boundFlags scenario.frigateArgs
    (v3.mkSubcommand c name
       (Some (goPlugin.mkOptions "" domain "" "" ""
                v3.defaultWebhookVersion false false false))
       res false)
  = (v3.mkSubcommand c name (Some (scenario.frigateOptions domain)) res false,
     None).
Proof. reflexivity. Qed.

(** [Run] when the six checks pass and the boilerplate header can be read:
    after the calls of [Validate] it reads the header, makes the scaffolder
    of the configuration, the text, the resource it built and the force
    flag, and runs it once. *)
Lemma Run_scaffolds
  (vo : goPlugin.Options -> option error)
  (vr : resource.Resource -> option error)
  (w : world.World) (p : v3.createWebhookSubcommand)
  (o : goPlugin.Options) (c : config.Config) (bp : string) :
  v3.options p = Some o ->
  v3.config p = Some c ->
  chain.firstFailure
    (chain.checks vo vr (world.project w)
       (v3.set_resource (goPlugin.NewResource o (v3.config p)) p) o) = None ->
  ioutil.ReadFile (world.files w) "hack/boilerplate.go.txt" = inl bp ->
  exists tr,
    interp (world.collaborators vo vr) (v3.Run p) w
    = ((tr ++ [Ev (ReadFile "hack/boilerplate.go.txt") (inl bp);
               Ev (Scaffold
                     (scaffolds.NewWebhookScaffolder (v3.config p) bp
                        (goPlugin.NewResource o (v3.config p)) (v3.force p)))
                  None])%list,
       world.mkWorld
         (config.UpdateResource (goPlugin.NewResource o (v3.config p))
            (world.project w))
         (world.files w),
       Done (None, v3.set_resource (goPlugin.NewResource o (v3.config p)) p)).
Proof.
  intros Ho Hc Hpass Hread.
  destruct (Validate_first_failure vo vr w
              (v3.set_resource (goPlugin.NewResource o (v3.config p)) p)
              (o := o) (c := c)) as [tr Hrun]; [exact Ho | exact Hc |].
  rewrite Hpass in Hrun. exists tr.
  unfold v3.Run, bind, get, deref, v3.assign.
  cbn -[v3.set_resource v3.Validate]. rewrite Ho.
  cbn -[v3.set_resource v3.Validate].
  unfold cmdutil.Run, bind.
  cbn [cmdutil.Validate cmdutil.GetScaffolder cmdutil.PostScaffold v3.RunOptions].
  rewrite interp_bind, Hrun.
  cbn [fst snd]. unfold v3.GetScaffolder, v3.PostScaffold, bind, get, invoke, ret.
  cbn [Prog_bind interp fst snd world.collaborators filepath.Join].
  change (filepath.Join ["hack"; "boilerplate.go.txt"]) with "hack/boilerplate.go.txt".
  cbn [Prog_bind interp fst snd world.collaborators].
  rewrite Hread.
  cbn [Prog_bind interp fst snd world.collaborators].
  destruct p; reflexivity.
Qed.
(** C6. An invocation that gives no [webhook-version] argument ends with
    the options' webhook version at its default, [v1].  And the scenario:
    for [--group ship --version v1beta1 --kind Frigate --defaulting], when
    the two validators accept the options and the resource, the resource is
    declared, the project is committed to no webhook version and the
    boilerplate header can be read, validation succeeds and the scaffolder
    is made, and run, with the resource whose webhook version is [v1]. *)
Theorem webhook_version_defaults_to_v1 :
  forall (vo : goPlugin.Options -> option error)
         (vr : resource.Resource -> option error)
         (w : world.World) (ctx : plugin.Context)
         (p0 : v3.createWebhookSubcommand),
    (forall args,
        ~ In "webhook-version" (map fst args) ->
        exists tr w' res p' o,
          interp (world.collaborators vo vr)
            (invocation config.Loaded ctx args p0) w
          = (tr, w', Done (res, p'))
          /\ v3.options p' = Some o
          /\ goPlugin.WebhookVersion o = "v1")
    /\ (forall declared bp,
          vo (scenario.frigateOptions (config.Domain (world.project w))) = None ->
          vr (goPlugin.NewResource
                (scenario.frigateOptions (config.Domain (world.project w)))
                (Some config.Loaded)) = None ->
          config.GetResource (world.project w)
            (goPlugin.GVK (scenario.frigateOptions (config.Domain (world.project w))))
          = inl declared ->
          config.ProjectWebhookPolicy (world.project w) = None ->
          ioutil.ReadFile (world.files w) "hack/boilerplate.go.txt" = inl bp ->
          exists tr w',
            interp (world.collaborators vo vr)
              (invocation config.Loaded ctx scenario.frigateArgs p0) w
            = (tr, w',
               Done (inr None,
                     v3.mkSubcommand (Some config.Loaded) (plugin.CommandName ctx)
                       (Some (scenario.frigateOptions (config.Domain (world.project w))))
                       (goPlugin.NewResource
                          (scenario.frigateOptions (config.Domain (world.project w)))
                          (Some config.Loaded))
                       false))
            /\ In (Ev (Scaffold
                         (scaffolds.NewWebhookScaffolder (Some config.Loaded) bp
                            (resource.mkResource
                               (resource.mkGVK "ship" (config.Domain (world.project w))
                                  "v1beta1" "Frigate")
                               ""
                               (Some (resource.mkWebhooks "v1" true false false)))
                            false))
                      None) tr).
Proof.
  intros vo vr w ctx p0. split.
  - intros args Hargs.
    unfold invocation. unfold bind at 1. unfold v3.InjectConfig, v3.assign.
    cbn [Prog_bind fst snd].
    unfold bind at 1. rewrite interp_bind.
    destruct (BindFlags_binds (world.collaborators vo vr) w
                (v3.set_config (Some config.Loaded) p0) (c := config.Loaded) eq_refl)
      as (fs & -> & Hnames & _ & Hkeep).
    unfold bind, v3.UpdateContext, v3.assign, get, put, ret.
    cbn -[pflag.Parse v3.Run v3.set_commandName].
    set (p1 := v3.set_commandName _ _).
    assert (K : keepsWebhookVersion p1 (fst (pflag.Parse fs args p1))).
    { apply Parse_invariant with (allowed := fun n => n <> "webhook-version").
      - apply keepsWebhookVersion_refl.
      - apply keepsWebhookVersion_trans.
      - exact Hkeep.
      - apply Forall_forall. intros n Hn ->. contradiction. }
    destruct K as (K1 & K2).
    assert (Hv : exists o2, v3.options (fst (pflag.Parse fs args p1)) = Some o2
                       /\ goPlugin.WebhookVersion o2 = "v1").
    { unfold webhookVersionOf in K2. cbn in K2.
      destruct (v3.options (fst (pflag.Parse fs args p1))) as [o2|];
        [|discriminate K2].
      injection K2 as K2. eauto. }
    destruct Hv as (o2 & Ho2 & Hver).
    destruct (pflag.Parse fs args p1) as [p2 [err|]]; cbn [fst snd] in *.
    + cbn. do 3 eexists. exists p2, o2. split; [reflexivity|]. auto.
    + destruct (Run_returns (world.collaborators vo vr) w p2 (o := o2)
                  (c := config.Loaded))
        as (tr & w' & res & Hrun); [exact Ho2 | now rewrite K1 |].
      rewrite interp_bind, Hrun. cbn.
      do 3 eexists.
      exists (v3.set_resource (goPlugin.NewResource o2 (v3.config p2)) p2), o2.
      split; [reflexivity|]. auto.
  - intros declared bp H1 H2 H3 H4 H5.
    assert (Hcarry : config.carriesWebhooks declared = false).
    { apply uncommitted_no_webhooks with (st := world.project w); [exact H4|].
      now apply GetResource_declared in H3. }
    unfold invocation. unfold bind at 1. unfold v3.InjectConfig, v3.assign.
    cbn [Prog_bind fst snd].
    unfold bind at 1. rewrite interp_bind.
    rewrite (BindFlags_boundFlags (world.collaborators vo vr) w
               (v3.set_config (Some config.Loaded) p0) (c := config.Loaded) eq_refl).
    unfold bind, v3.UpdateContext, v3.assign, get, put, ret.
    cbn -[pflag.Parse v3.Run boundFlags scenario.frigateArgs
          v3.defaultWebhookVersion].
    unfold config.GetDomain, v3.set_commandName.
    cbn [v3.config v3.options v3.resource v3.force v3.commandName].
    rewrite Parse_frigateArgs. cbn [fst snd].
    rewrite interp_bind.
    destruct (Run_scaffolds vo vr w
                (v3.mkSubcommand (Some config.Loaded) (plugin.CommandName ctx)
                   (Some (scenario.frigateOptions (config.Domain (world.project w))))
                   (v3.resource p0) false)
                (o := scenario.frigateOptions (config.Domain (world.project w)))
                (c := config.Loaded) (bp := bp) eq_refl eq_refl)
      as [tr Hrun]; [|exact H5|].
    { unfold chain.checks, chain.optionWellFormedness,
        chain.resourceWellFormedness, chain.webhookTypeSelection,
        chain.resourceExistence, chain.nonDuplicationUnlessForced,
        chain.versionCompatibility, chain.duplicates.
      cbn [v3.resource v3.set_resource v3.config v3.force v3.commandName].
      rewrite H1, H2. unfold goPlugin.NewResource.
      cbn [resource.gvk resource.webhooks resource.WebhookVersion].
      rewrite H3, Hcarry.
      rewrite (uncommitted_compatible _ _ H4).
      reflexivity. }
    rewrite Hrun. cbn [fst snd v3.config v3.force v3.set_resource
                       v3.commandName v3.options].
    do 2 eexists. split; [reflexivity|].
    apply in_cons. rewrite ?app_nil_r.
    apply in_or_app. right. right. left. reflexivity.
Qed.
(** ** The theorems at concrete inputs *)

(** The modelled collaborators honour the contract of the queries. *)
Lemma collaborators_queriesReadOnly
  (vo : goPlugin.Options -> option error)
  (vr : resource.Resource -> option error) :
  queriesReadOnly (world.collaborators vo vr).
Proof.
  intros X c w Hq. destruct c; cbn in *; try reflexivity; discriminate Hq.
Qed.

(** C1 at an input: a second webhook for [Destroyer], unforced. *)
Lemma Validate_is_the_ordered_chain_witness :
  exists tr w' verdict,
    interp world.standard
      (v3.Validate
         (scenario.bound (scenario.options "v1" "Destroyer" "v1" true false false) false))
      scenario.committed
    = (tr, w',
       Done (verdict,
             scenario.bound (scenario.options "v1" "Destroyer" "v1" true false false) false))
    /\ chain.run
         (scenario.bound (scenario.options "v1" "Destroyer" "v1" true false false) false)
         (scenario.options "v1" "Destroyer" "v1" true false false)
         config.Loaded tr verdict.
Proof.
  exact (@Validate_is_the_ordered_chain _ world.standard scenario.committed
           (scenario.bound (scenario.options "v1" "Destroyer" "v1" true false false) false)
           (scenario.options "v1" "Destroyer" "v1" true false false)
           config.Loaded eq_refl eq_refl).
Defined.

(** C3 at an input: [Destroyer] already carries a webhook; unforced, a
    second one is refused. *)
Lemma existing_webhook_requires_force_witness :
  snd (interp world.standard
         (v3.Validate
            (scenario.bound (scenario.options "v1" "Destroyer" "v1" true false false) false))
         scenario.committed)
  = Done (Some chain.errWebhookAlreadyExists,
          scenario.bound (scenario.options "v1" "Destroyer" "v1" true false false) false).
Proof.
  destruct (@existing_webhook_requires_force goPlugin.Validate resource.Validate
              scenario.committed
              (scenario.bound (scenario.options "v1" "Destroyer" "v1" true false false) false)
              (scenario.options "v1" "Destroyer" "v1" true false false)
              config.Loaded scenario.destroyer eq_refl eq_refl eq_refl eq_refl)
    as (verdict & Hrun & Hunforced & _).
  unfold world.standard. rewrite Hrun.
  destruct (Hunforced eq_refl) as [_ H].
  now rewrite (H eq_refl eq_refl eq_refl).
Defined.

(** C5 at an input: the project is committed to [v1] by [Destroyer]; a
    [v1beta1] webhook for [Frigate] is refused. *)
Lemma committed_v1_decides_the_version_witness :
  snd (interp world.standard
         (v3.Validate
            (scenario.bound (scenario.options "v1beta1" "Frigate" "v1beta1" true false false) false))
         scenario.committed)
  = Done (Some (chain.errWebhookVersionConflict "v1beta1"),
          scenario.bound (scenario.options "v1beta1" "Frigate" "v1beta1" true false false) false).
Proof.
  destruct (@committed_v1_decides_the_version goPlugin.Validate resource.Validate
              scenario.committed
              (scenario.bound (scenario.options "v1beta1" "Frigate" "v1beta1" true false false) false)
              (scenario.options "v1beta1" "Frigate" "v1beta1" true false false)
              config.Loaded eq_refl eq_refl eq_refl eq_refl)
    as (verdict & Hrun & Hbeta & _).
  unfold world.standard. rewrite Hrun, (Hbeta eq_refl). reflexivity.
Defined.

(** C6 at an input: the scenario in the project where only [Frigate] is
    declared. *)
Lemma webhook_version_defaults_to_v1_witness :
  exists tr w',
    interp world.standard
      (invocation config.Loaded scenario.ctx scenario.frigateArgs v3.zero)
      scenario.fresh
    = (tr, w',
       Done (inr None,
             scenario.bound (scenario.frigateOptions "example.com") false))
    /\ In (Ev (Scaffold
                 (scaffolds.NewWebhookScaffolder (Some config.Loaded) "// Copyright"
                    (resource.mkResource scenario.frigateGVK ""
                       (Some (resource.mkWebhooks "v1" true false false)))
                    false))
              None) tr.
Proof.
  exact (proj2 (@webhook_version_defaults_to_v1 goPlugin.Validate resource.Validate
                  scenario.fresh scenario.ctx v3.zero)
           scenario.frigate "// Copyright" eq_refl eq_refl eq_refl eq_refl eq_refl).
Defined.

(** C7 at an input: a webhook for the undeclared [Cruiser]; the run stops
    at the failed validation, the world untouched. *)
Lemma failed_validation_touches_nothing_witness :
  exists tr,
    interp world.standard
      (v3.Run (v3.mkSubcommand (Some config.Loaded) "kubebuilder"
                 (Some (scenario.options "v1" "Cruiser" "v1" true false false))
                 resource.zero false))
      scenario.committed
    = (tr, scenario.committed,
       Done (Some (chain.errResourceNotFound "kubebuilder"),
             scenario.bound (scenario.options "v1" "Cruiser" "v1" true false false) false))
    /\ forallb queried tr = true.
Proof.
  destruct (@failed_validation_touches_nothing _ world.standard scenario.committed
              (v3.mkSubcommand (Some config.Loaded) "kubebuilder"
                 (Some (scenario.options "v1" "Cruiser" "v1" true false false))
                 resource.zero false)
              (scenario.options "v1" "Cruiser" "v1" true false false)
              (collaborators_queriesReadOnly goPlugin.Validate resource.Validate)
              eq_refl)
    as [_ Hrun].
  apply (Hrun (chain.errResourceNotFound "kubebuilder")). reflexivity.
Defined.

(** C9 at an input: forced, a [v1beta1] webhook for [Destroyer], which
    already carries a [v1] one: the duplication is let through, the version
    is not. *)
Lemma force_bypasses_only_the_duplication_check_witness :
  snd (interp world.standard
         (v3.Validate
            (scenario.bound (scenario.options "v1" "Destroyer" "v1beta1" true false false) true))
         scenario.committed)
  = Done (Some (chain.errWebhookVersionConflict "v1beta1"),
          scenario.bound (scenario.options "v1" "Destroyer" "v1beta1" true false false) true).
Proof.
  destruct (@force_bypasses_only_the_duplication_check goPlugin.Validate resource.Validate
              scenario.committed
              (scenario.bound (scenario.options "v1" "Destroyer" "v1beta1" true false false) true)
              (scenario.options "v1" "Destroyer" "v1beta1" true false false)
              config.Loaded eq_refl eq_refl eq_refl)
    as (verdict & Hrun & _ & Hconflict & _).
  unfold world.standard. rewrite Hrun.
  destruct (Hconflict (resource.mkWebhooks "v1beta1" true false false) eq_refl eq_refl)
    as [_ H].
  now rewrite (H eq_refl).
Defined.

(** * Further properties of [webhook.go] *)

(** X1. The force flag bears on the duplication check alone, whatever the
    collaborators answer: with the flag set [Validate] never fails with
    [WebhookAlreadyExists]; and for any receiver, unless the unforced run
    fails with [WebhookAlreadyExists], the forced run makes the same calls,
    leaves the same world and gives the same verdict. *)
Theorem force_only_lifts_the_duplication_failure :
  forall (W : Type) (h : handler W) (w : W) (p : v3.createWebhookSubcommand),
    (forall f q,
        snd (interp h (v3.Validate (v3.set_force true p)) w) = Done (Some f, q) ->
        kind f <> WebhookAlreadyExists)
    /\ (snd (interp h (v3.Validate (v3.set_force false p)) w)
        = Done (Some chain.errWebhookAlreadyExists, v3.set_force false p)
        \/ (fst (interp h (v3.Validate (v3.set_force true p)) w)
            = fst (interp h (v3.Validate (v3.set_force false p)) w)
            /\ composed.verdictOf (snd (interp h (v3.Validate (v3.set_force true p)) w))
               = composed.verdictOf (snd (interp h (v3.Validate (v3.set_force false p)) w)))).
Proof.
  intros W h w p.
  destruct p as [cfg name opts res frc].
  unfold v3.Validate, bind, get, deref, invoke, ret, panic, v3.set_force.
  cbn.
  destruct opts as [o|]; cbn.
  2:{ split; [intros f q H; discriminate H | right; split; reflexivity]. }
  destruct (h _ (OptionsValidate o) w) as [[e1|] w1]; cbn.
  { split; [intros f q [= <- _]; discriminate | right; split; reflexivity]. }
  destruct (h _ (ResourceValidate res) w1) as [[e2|] w2]; cbn.
  { split; [intros f q [= <- _]; discriminate | right; split; reflexivity]. }
  rewrite typeSelected_guard.
  destruct (chain.typeSelected res) eqn:Ht; cbn.
  2:{ split; [intros f q [= <- _]; discriminate | right; split; reflexivity]. }
  destruct cfg as [c|]; cbn.
  2:{ split; [intros f q H; discriminate H | right; split; reflexivity]. }
  destruct (h _ (GetResource c (resource.gvk res)) w2) as [[r|e3] w3]; cbn.
  2:{ split; [intros f q [= <- _]; discriminate | right; split; reflexivity]. }
  rewrite andb_false_r, andb_true_r. cbn.
  destruct (typeSelected_webhooks _ Ht) as [wh Hw]. rewrite Hw. cbn.
  destruct (match resource.webhooks r with
            | Some w4 => negb (resource.IsEmpty w4)
            | None => false
            end); cbn.
  - destruct (h _ (IsWebhookVersionCompatible c (resource.WebhookVersion wh)) w3)
      as [[|] w4]; cbn.
    + split; [intros f q H; discriminate H | left; reflexivity].
    + split; [intros f q [= <- _]; discriminate | left; reflexivity].
  - destruct (h _ (IsWebhookVersionCompatible c (resource.WebhookVersion wh)) w3)
      as [[|] w4]; cbn.
    + split; [intros f q H; discriminate H | right; split; reflexivity].
    + split; [intros f q [= <- _]; discriminate | right; split; reflexivity].
Qed.

(** X2. The first three checks do not need the configuration.  With the
    options bound and no configuration injected, a failure of the options
    validator, of the resource validator or of the selection check is
    returned as usual, after the calls of the validators only; [Validate]
    panics, on the nil configuration, only when the three pass and the
    lookup is reached. *)
Theorem Validate_without_configuration :
  forall (W : Type) (h : handler W) (w : W) (p : v3.createWebhookSubcommand)
         (o : goPlugin.Options),
    v3.options p = Some o ->
    v3.config p = None ->
    interp h (v3.Validate p) w
    = match fst (h _ (OptionsValidate o) w) with
      | Some err =>
          ([Ev (OptionsValidate o) (Some err)],
           snd (h _ (OptionsValidate o) w),
           Done (Some (Failure InvalidOption err), p))
      | None =>
          match fst (h _ (ResourceValidate (v3.resource p))
                       (snd (h _ (OptionsValidate o) w))) with
          | Some err =>
              ([Ev (OptionsValidate o) None;
                Ev (ResourceValidate (v3.resource p)) (Some err)],
               snd (h _ (ResourceValidate (v3.resource p))
                      (snd (h _ (OptionsValidate o) w))),
               Done (Some (Failure InvalidResource err), p))
          | None =>
              ([Ev (OptionsValidate o) None;
                Ev (ResourceValidate (v3.resource p)) None],
               snd (h _ (ResourceValidate (v3.resource p))
                      (snd (h _ (OptionsValidate o) w))),
               if chain.typeSelected (v3.resource p)
               then Panicked nilDereference
               else Done (Some (chain.errNoWebhookTypeSelected (v3.commandName p)), p))
          end
      end.
Proof.
  intros W h w p o Ho Hc.
  unfold v3.Validate, bind, get, deref, invoke, ret, panic. cbn.
  rewrite Ho. cbn.
  destruct (h _ (OptionsValidate o) w) as [[e1|] w1]; cbn; [reflexivity|].
  destruct (h _ (ResourceValidate (v3.resource p)) w1) as [[e2|] w2]; cbn;
    [reflexivity|].
  rewrite typeSelected_guard.
  destruct (chain.typeSelected (v3.resource p)); cbn; [|reflexivity].
  rewrite Hc. reflexivity.
Qed.

Lemma Validate_without_configuration_witness :
  snd (interp world.standard
         (v3.Validate
            (v3.mkSubcommand None "kubebuilder"
               (Some (scenario.options "v1" "Destroyer" "v1" false false false))
               (goPlugin.NewResource
                  (scenario.options "v1" "Destroyer" "v1" false false false) None)
               false))
         scenario.committed)
  = Done (Some (chain.errNoWebhookTypeSelected "kubebuilder"),
          v3.mkSubcommand None "kubebuilder"
            (Some (scenario.options "v1" "Destroyer" "v1" false false false))
            (goPlugin.NewResource
               (scenario.options "v1" "Destroyer" "v1" false false false) None)
            false).
Proof.
  rewrite (@Validate_without_configuration _ world.standard scenario.committed
             (v3.mkSubcommand None "kubebuilder"
                (Some (scenario.options "v1" "Destroyer" "v1" false false false))
                (goPlugin.NewResource
                   (scenario.options "v1" "Destroyer" "v1" false false false) None)
                false)
             (scenario.options "v1" "Destroyer" "v1" false false false)
             eq_refl eq_refl).
  reflexivity.
Defined.



(** X4. [BindFlags] starts from fresh options: what it returns, the calls
    it makes and the receiver it leaves depend on the receiver's
    configuration, command name and resource only, never on the options or
    the force flag an earlier binding or parse left there. *)
Theorem BindFlags_forgets_earlier_values :
  forall (W : Type) (h : handler W) (w : W)
         (fs : pflag.FlagSet v3.createWebhookSubcommand)
         (p p' : v3.createWebhookSubcommand),
    v3.config p = v3.config p' ->
    v3.commandName p = v3.commandName p' ->
    v3.resource p = v3.resource p' ->
    interp h (v3.BindFlags fs p) w = interp h (v3.BindFlags fs p') w.
Proof.
  intros W h w fs p p' Hc Hn Hr.
  destruct p as [cfg name opts res frc], p' as [cfg' name' opts' res' frc'].
  cbn in Hc, Hn, Hr. subst cfg' name' res'.
  unfold v3.BindFlags, bind, get, deref, invoke, ret, v3.assign,
    pflag.StringVar, pflag.BoolVar.
  cbn. destruct cfg as [c|]; reflexivity.
Qed.

Lemma BindFlags_forgets_earlier_values_witness :
  interp world.standard
    (v3.BindFlags (pflag.NewFlagSet v3.createWebhookSubcommand)
       (scenario.bound (scenario.options "v1" "Destroyer" "v1beta1" true true false) true))
    scenario.fresh
  = interp world.standard
      (v3.BindFlags (pflag.NewFlagSet v3.createWebhookSubcommand)
         (v3.mkSubcommand (Some config.Loaded) "kubebuilder" None
            (goPlugin.NewResource
               (scenario.options "v1" "Destroyer" "v1beta1" true true false)
               (Some config.Loaded))
            false))
      scenario.fresh.
Proof.
  apply (@BindFlags_forgets_earlier_values _ world.standard scenario.fresh
           (pflag.NewFlagSet v3.createWebhookSubcommand)
           (scenario.bound (scenario.options "v1" "Destroyer" "v1beta1" true true false) true)
           (v3.mkSubcommand (Some config.Loaded) "kubebuilder" None
              (goPlugin.NewResource
                 (scenario.options "v1" "Destroyer" "v1beta1" true true false)
                 (Some config.Loaded))
              false));
    reflexivity.
Defined.

(** The nine flags, each given once, over the defaults. *)
Lemma Parse_everyFlag (c : option config.Config) (name domain : string)
  (res : resource.Resource)
  (group version kind plural webhookVersion : string)
  (defaulting validation conversion force : bool) :
  pflag.Parse boundFlags
    (composed.everyFlag group version kind plural webhookVersion
       defaulting validation conversion force)
    (v3.mkSubcommand c name
       (Some (goPlugin.mkOptions "" domain "" "" ""
                v3.defaultWebhookVersion false false false))
       res false)
  = (v3.mkSubcommand c name
       (Some (goPlugin.mkOptions group domain version kind plural webhookVersion
                defaulting validation conversion))
       res force,
     None).
Proof.
  destruct defaulting, validation, conversion, force; reflexivity.
Qed.

(** X5. Each flag [BindFlags] binds stores into the field of its own name:
    after binding on a fresh flag set, the parse of one argument for each of
    [group], [version], [kind], [plural], [webhook-version], [defaulting],
    [programmatic-validation], [conversion] and [force] succeeds and leaves
    exactly those values in the options and the force flag, the domain being
    the one the configuration answered; the configuration, the command name
    and the resource are as before. *)
Theorem every_flag_reaches_its_field :
  forall (W : Type) (h : handler W) (w : W)
         (p : v3.createWebhookSubcommand) (c : config.Config)
         (group version kind plural webhookVersion : string)
         (defaulting validation conversion force : bool),
    v3.config p = Some c ->
    interp h
      (composed.bindAndParse
         (composed.everyFlag group version kind plural webhookVersion
            defaulting validation conversion force) p) w
    = ([Ev (GetDomain c) (fst (h _ (GetDomain c) w))],
       snd (h _ (GetDomain c) w),
       Done (None,
             v3.mkSubcommand (Some c) (v3.commandName p)
               (Some (goPlugin.mkOptions group (fst (h _ (GetDomain c) w))
                        version kind plural webhookVersion
                        defaulting validation conversion))
               (v3.resource p) force)).
Proof.
  intros W h w p c group version kind plural webhookVersion
    defaulting validation conversion force Hc.
  unfold composed.bindAndParse. unfold bind at 1. rewrite interp_bind.
  rewrite (BindFlags_boundFlags h w p Hc).
  unfold bind, get, put, ret. cbn [fst snd Prog_bind].
  rewrite Parse_everyFlag. reflexivity.
Qed.

Lemma every_flag_reaches_its_field_witness :
  interp world.standard
    (composed.bindAndParse
       (composed.everyFlag "ship" "v1" "Destroyer" "destroyers" "v1beta1"
          true false true true)
       (v3.set_config (Some config.Loaded) v3.zero))
    scenario.fresh
  = ([Ev (GetDomain config.Loaded) "example.com"],
     scenario.fresh,
     Done (None,
           v3.mkSubcommand (Some config.Loaded) ""
             (Some (goPlugin.mkOptions "ship" "example.com" "v1" "Destroyer"
                      "destroyers" "v1beta1" true false true))
             resource.zero true)).
Proof.
  apply (@every_flag_reaches_its_field _ world.standard scenario.fresh
           (v3.set_config (Some config.Loaded) v3.zero) config.Loaded
           "ship" "v1" "Destroyer" "destroyers" "v1beta1" true false true true
           eq_refl).
Defined.



(** X7. [Validate] can be repeated.  When the queries are read-only, a
    second [Validate] right after the first makes the same calls again and
    gives the same verdict, the world and the receiver being as they were;
    if the first panics there is no second. *)
Theorem Validate_twice_agrees :
  forall (W : Type) (h : handler W) (w : W) (p : v3.createWebhookSubcommand),
    queriesReadOnly h ->
    exists tr out,
      interp h (v3.Validate p) w = (tr, w, out)
      /\ interp h (composed.validateTwice p) w
         = match out with
           | Done r => ((tr ++ tr)%list, w, Done ((fst r, fst r), p))
           | Panicked reason => (tr, w, Panicked reason)
           end.
Proof.
  intros W h w p Hro.
  destruct (Validate_frame h w p) as (tr & w' & out & Hrun & _ & Hp & _ & Hw).
  rewrite (Hw Hro) in Hrun. exists tr, out. split; [exact Hrun|].
  unfold composed.validateTwice. unfold bind at 1.
  rewrite interp_bind, Hrun.
  destruct out as [[v q]|reason]; [|reflexivity].
  pose proof (Hp v q eq_refl) as Hq. subst q. cbn [fst snd].
  unfold bind. rewrite interp_bind, Hrun. cbn. now rewrite app_nil_r.
Qed.

Lemma Validate_twice_agrees_witness :
  exists tr out,
    interp world.standard
      (v3.Validate
         (scenario.bound (scenario.options "v1" "Destroyer" "v1" true false false) false))
      scenario.committed
    = (tr, scenario.committed, out)
    /\ interp world.standard
         (composed.validateTwice
            (scenario.bound (scenario.options "v1" "Destroyer" "v1" true false false) false))
         scenario.committed
       = match out with
         | Done r =>
             ((tr ++ tr)%list, scenario.committed,
              Done ((fst r, fst r),
                    scenario.bound (scenario.options "v1" "Destroyer" "v1" true false false) false))
         | Panicked reason => (tr, scenario.committed, Panicked reason)
         end.
Proof.
  exact (@Validate_twice_agrees _ world.standard scenario.committed
           (scenario.bound (scenario.options "v1" "Destroyer" "v1" true false false) false)
           (collaborators_queriesReadOnly goPlugin.Validate resource.Validate)).
Defined.

(** X8. [BindFlags] binds nine flags and no other: after binding on a
    fresh flag set, a command line with an argument under any other name
    does not parse. *)
Theorem only_the_nine_flags_parse :
  forall (W : Type) (h : handler W) (w : W)
         (p : v3.createWebhookSubcommand) (c : config.Config)
         (args : list (string * string)) (name : string),
    v3.config p = Some c ->
    In name (map fst args) ->
    ~ In name composed.flagNames ->
    exists err q,
      snd (interp h (composed.bindAndParse args p) w) = Done (Some err, q).
Proof.
  intros W h w p c args name Hc Hin Hname.
  unfold composed.bindAndParse. unfold bind at 1. rewrite interp_bind.
  rewrite (BindFlags_boundFlags h w p Hc).
  unfold bind, get, put, ret. cbn [fst snd Prog_bind interp].
  pose proof (@Parse_unknown_flag boundFlags name Hname args
                (v3.mkSubcommand (Some c) (v3.commandName p)
                   (Some (goPlugin.mkOptions "" (fst (h _ (GetDomain c) w)) "" "" ""
                            v3.defaultWebhookVersion false false false))
                   (v3.resource p) false) Hin) as Hfail.
  destruct (pflag.Parse boundFlags args _) as [q [err|]]; cbn [fst snd] in *.
  - eauto.
  - now contradiction Hfail.
Qed.

Lemma only_the_nine_flags_parse_witness :
  exists err q,
    snd (interp world.standard
           (composed.bindAndParse [("kind", "Frigate"); ("namespaced", "true")]
              (v3.set_config (Some config.Loaded) v3.zero))
           scenario.fresh)
    = Done (Some err, q).
Proof.
  apply (@only_the_nine_flags_parse _ world.standard scenario.fresh
           (v3.set_config (Some config.Loaded) v3.zero) config.Loaded
           [("kind", "Frigate"); ("namespaced", "true")] "namespaced" eq_refl).
  - cbn. auto.
  - cbn. intros H.
    repeat (destruct H as [H|H]; [discriminate H|]). exact H.
Defined.

Lemma boundFlags_keep_types (f : pflag.Flag v3.createWebhookSubcommand)
  (value : string) (s s' : v3.createWebhookSubcommand) :
  In f boundFlags ->
  ~ In (pflag.Name f) composed.typeFlags ->
  pflag.Value f value s = inl s' ->
  composed.typesOf s' = composed.typesOf s.
Proof.
  intros Hin Hname Hv. cbn in Hin.
  repeat (destruct Hin as [<-|Hin]; [cbn in Hv, Hname|]); try contradiction.
  all: try (exfalso; apply Hname; cbn; tauto).
  all: try (destruct (pflag.ParseBool value); [|discriminate Hv]).
  all: injection Hv as <-.
  all: unfold composed.typesOf, v3.store_Group, v3.store_Version, v3.store_Kind,
    v3.store_Plural, v3.store_WebhookVersion, v3.through_options, v3.set_force.
  all: destruct (v3.options s) eqn:E; cbn; rewrite ?E; reflexivity.
Qed.

(** X9. The three webhook types are off unless their own flags turn them
    on: after binding on a fresh flag set, whatever arguments are parsed,
    if none is under [defaulting], [programmatic-validation] or
    [conversion], the options select no webhook type (so the selection
    check of [Validate] has nothing to accept). *)
Theorem webhook_types_default_to_off :
  forall (W : Type) (h : handler W) (w : W)
         (p : v3.createWebhookSubcommand) (c : config.Config)
         (args : list (string * string)),
    v3.config p = Some c ->
    (forall name, In name (map fst args) -> ~ In name composed.typeFlags) ->
    exists err q o,
      snd (interp h (composed.bindAndParse args p) w) = Done (err, q)
      /\ v3.options q = Some o
      /\ goPlugin.DoDefaulting o = false
      /\ goPlugin.DoValidation o = false
      /\ goPlugin.DoConversion o = false.
Proof.
  intros W h w p c args Hc Hargs.
  unfold composed.bindAndParse. unfold bind at 1. rewrite interp_bind.
  rewrite (BindFlags_boundFlags h w p Hc).
  unfold bind, get, put, ret. cbn [fst snd Prog_bind interp].
  set (p1 := v3.mkSubcommand _ _ _ _ _).
  assert (K : composed.typesOf (fst (pflag.Parse boundFlags args p1))
              = composed.typesOf p1).
  { apply (@Parse_invariant boundFlags
             (fun n => ~ In n composed.typeFlags)
             (fun s s' => composed.typesOf s' = composed.typesOf s)).
    - reflexivity.
    - intros s1 s2 s3 H12 H23. congruence.
    - intros f value s s' Hin Hn Hv. eapply boundFlags_keep_types; eauto.
    - apply Forall_forall. exact Hargs. }
  unfold composed.typesOf in K. cbn in K.
  destruct (pflag.Parse boundFlags args p1) as [q err]; cbn [fst snd] in *.
  destruct (v3.options q) as [o|] eqn:Eo; [|discriminate K].
  injection K as K1 K2 K3.
  exists err, q, o. repeat split; auto.
Qed.

Lemma webhook_types_default_to_off_witness :
  exists err q o,
    snd (interp world.standard
           (composed.bindAndParse [("group", "ship"); ("kind", "Frigate"); ("force", "true")]
              (v3.set_config (Some config.Loaded) v3.zero))
           scenario.fresh)
    = Done (err, q)
    /\ v3.options q = Some o
    /\ goPlugin.DoDefaulting o = false
    /\ goPlugin.DoValidation o = false
    /\ goPlugin.DoConversion o = false.
Proof.
  apply (@webhook_types_default_to_off _ world.standard scenario.fresh
           (v3.set_config (Some config.Loaded) v3.zero) config.Loaded
           [("group", "ship"); ("kind", "Frigate"); ("force", "true")] eq_refl).
  cbn. intros name [<-|[<-|[<-|[]]]] H;
    repeat (destruct H as [H|H]; [discriminate H|]); exact H.
Defined.
